(** * winauth-totp-clip: the record extractor and the TOTP pipeline of
      [oauth_script.py], embedded in Rocq.

    Python values are modelled as follows.
    - [str] is [string]; a character is a code point below 256 (the
      Latin-1 range of Python's [str]), so [str.lower], [str.isspace] and
      the regex class [\s] are Python's functions restricted to that range.
    - the [dict] built by [parse_first_match] is a [gmap string string].
    - [int] is [Z].
    - an exception that leaves a function is the [Raise] case of [result].
    - the text file is the list of raw lines its iterator yields; the
      clock, the clipboard tools and [pyperclip] are fields of [env]. *)

From Stdlib Require Import ZArith Ascii List Lia Bool.
From Stdlib Require String.
From stdpp Require Import base option list gmap strings.

Local Open Scope Z_scope.

(** ** Characters and strings *)

Module Py.

(** [str.isspace] on one character, which is also the regex class [\s]
    of a [str] pattern: TAB..CR, FS..US, space, NEL and NBSP. *)
Definition isspace (c : ascii) : bool :=
  let n := N_of_ascii c in
  ((9 <=? n) && (n <=? 13) || (28 <=? n) && (n <=? 32)
   || (n =? 133) || (n =? 160))%N.

(** [str.lower] on one character: [A-Z] and the Latin-1 capitals
    U+00C0..U+00DE (without the multiplication sign U+00D7) move up by 32. *)
Definition lower_char (c : ascii) : ascii :=
  let n := N_of_ascii c in
  if ((65 <=? n) && (n <=? 90)
      || (192 <=? n) && (n <=? 222) && negb (n =? 215))%N
  then ascii_of_N (n + 32) else c.

Fixpoint lower (s : string) : string :=
  match s with
  | EmptyString => EmptyString
  | String c s' => String (lower_char c) (lower s')
  end.

(** [s.startswith(p)] *)
Fixpoint startswith (p s : string) : bool :=
  match p, s with
  | EmptyString, _ => true
  | String a p', String b s' => Ascii.eqb a b && startswith p' s'
  | String _ _, EmptyString => false
  end.

(** [needle in hay] for two strings: plain substring containment. *)
Fixpoint contains (needle hay : string) : bool :=
  startswith needle hay ||
  match hay with
  | EmptyString => false
  | String _ hay' => contains needle hay'
  end.

(** [s.split(sep)] for a one-character separator: never the empty list. *)
Fixpoint split_go (sep : ascii) (cur s : string) : list string :=
  match s with
  | EmptyString => [cur]
  | String c s' =>
      if Ascii.eqb c sep then cur :: split_go sep EmptyString s'
      else split_go sep (cur +:+ String c EmptyString) s'
  end.

Definition split (sep : ascii) (s : string) : list string :=
  split_go sep EmptyString s.

(** [s.split(sep, 1)] when [sep in s]: the text before the first [sep]
    and the text after it; [None] when [sep] does not occur. *)
Fixpoint split_once (sep : ascii) (s : string) : option (string * string) :=
  match s with
  | EmptyString => None
  | String c s' =>
      if Ascii.eqb c sep then Some (EmptyString, s')
      else match split_once sep s' with
           | Some (k, v) => Some (String c k, v)
           | None => None
           end
  end.

(** *** [int(s)] for a string

    CPython strips the white space of [int] (TAB..CR, space, and of the
    characters above 127 NEL and NBSP) on both sides, reads an optional
    sign, then decimal digits with single underscores between digits, and
    refuses more than [int_max_str_digits] digits (the default of
    [sys.set_int_max_str_digits]). A refusal is a [ValueError]. *)
Definition int_isspace (c : ascii) : bool :=
  let n := N_of_ascii c in
  ((9 <=? n) && (n <=? 13) || (n =? 32) || (n =? 133) || (n =? 160))%N.

Definition is_digit (c : ascii) : bool :=
  let n := N_of_ascii c in ((48 <=? n) && (n <=? 57))%N.

Definition digit_value (c : ascii) : Z := Z.of_N (N_of_ascii c) - 48.

Definition int_max_str_digits : N := 4300.

Fixpoint lstrip (s : string) : string :=
  match s with
  | String c s' => if int_isspace c then lstrip s' else s
  | EmptyString => EmptyString
  end.

(** The digit scan: the value read so far, the number of digits, and the
    text after the last digit; [None] on a doubled or trailing underscore. *)
Fixpoint scan_digits (s : string) (prev_us : bool) (acc : Z) (cnt : N)
  : option (Z * N * string) :=
  match s with
  | EmptyString => if prev_us then None else Some (acc, cnt, EmptyString)
  | String c s' =>
      if is_digit c then scan_digits s' false (10 * acc + digit_value c) (cnt + 1)
      else if Ascii.eqb c "_" then
        (if prev_us then None else scan_digits s' true acc cnt)
      else if prev_us then None else Some (acc, cnt, s)
  end.

Definition starts_with_char (c : ascii) (s : string) : bool :=
  match s with
  | String a _ => Ascii.eqb a c
  | EmptyString => false
  end.

Definition tail (s : string) : string :=
  match s with
  | String _ s' => s'
  | EmptyString => EmptyString
  end.

Definition int_unsigned (s : string) : option Z :=
  if starts_with_char "_" s then None
  else
    match scan_digits s false 0 0 with
    | Some (v, cnt, rest) =>
        if (cnt =? 0)%N then None
        else if (int_max_str_digits <? cnt)%N then None
        else match lstrip rest with
             | EmptyString => Some v
             | String _ _ => None
             end
    | None => None
    end.

Definition int (s : string) : option Z :=
  let s1 := lstrip s in
  if starts_with_char "+" s1 then int_unsigned (tail s1)
  else if starts_with_char "-" s1 then option_map Z.opp (int_unsigned (tail s1))
  else int_unsigned s1.

End Py.

(** ** The regular expression of [parse_first_match]

    [re.search(r"otpauth://totp/([^?]+)\?([^\s]+)", line, re.IGNORECASE)]
    as a backtracking matcher: a literal compared after lowering both
    sides, a greedy [+] that first tries to take one more character and
    falls back to its continuation, and a search over the start
    positions from left to right. *)

Module Re.

(** The literal [pat], ignoring case, at the head of [s]: the rest of [s]. *)
Fixpoint literal_ignorecase (pat s : string) : option string :=
  match pat with
  | EmptyString => Some s
  | String p pat' =>
      match s with
      | String c s' =>
          if Ascii.eqb (Py.lower_char c) (Py.lower_char p)
          then literal_ignorecase pat' s' else None
      | EmptyString => None
      end
  end.

(** [cls+] followed by the continuation [k], which gets the text taken
    and the text left. *)
Fixpoint plus_greedy {A} (cls : ascii -> bool)
    (k : string -> string -> option A) (taken s : string) : option A :=
  match s with
  | String c s' =>
      if cls c then
        let taken' := taken +:+ String c EmptyString in
        match plus_greedy cls k taken' s' with
        | Some r => Some r
        | None => k taken' s'
        end
      else None
  | EmptyString => None
  end.

Definition not_question (c : ascii) : bool := negb (Ascii.eqb c "?").
Definition not_space (c : ascii) : bool := negb (Py.isspace c).

Definition marker : string := "otpauth://totp/".

(** A match that starts at the head of [s]: groups 1 and 2. *)
Definition match_here (s : string) : option (string * string) :=
  match literal_ignorecase marker s with
  | None => None
  | Some s1 =>
      plus_greedy not_question
        (fun label s2 =>
           match s2 with
           | String c s3 =>
               if Ascii.eqb c "?" then
                 plus_greedy not_space (fun query _ => Some (label, query))
                   EmptyString s3
               else None
           | EmptyString => None
           end)
        EmptyString s1
  end.

(** [re.search]: the match at the leftmost start position that has one. *)
Fixpoint search (s : string) : option (string * string) :=
  match match_here s with
  | Some m => Some m
  | None =>
      match s with
      | EmptyString => None
      | String _ s' => search s'
      end
  end.

End Re.

(** ** [parse_first_match] *)

Inductive exn : Type :=
| ValueError (what : string)   (* [int] on a string that is no integer *)
| InvalidSecret                (* the generator: bad base32 *)
| InvalidDigits.               (* the generator: digits out of range *)

Inductive result (A : Type) : Type :=
| Ok (a : A)
| Raise (e : exn).
Arguments Ok {A} a.
Arguments Raise {A} e.

Record OtpDescriptor : Type := mkDescriptor {
  label : string;
  secret : string;
  digits : Z
}.

(** The loop over [query.split("&")] that fills [params]. *)
Definition add_param (params : gmap string string) (kv : string)
  : gmap string string :=
  match Py.split_once "=" kv with
  | Some (k, v) => <[Py.lower k := v]> params
  | None => params
  end.

Definition parse_query (query : string) : gmap string string :=
  foldl add_param ∅ (Py.split "&" query).

(** [parse_first_match line needle]: [Ok None] is [return None], [Raise]
    the [ValueError] of [int(params.get("digits", 6))]. *)
Definition parse_first_match (line needle : string)
  : result (option OtpDescriptor) :=
  match Re.search line with
  | None => Ok None
  | Some (label, query) =>
      if negb (Py.contains (Py.lower needle) (Py.lower label)) then Ok None
      else
        let params := parse_query query in
        match params !! "secret" with
        | None => Ok None
        | Some EmptyString => Ok None
        | Some secret =>
            match params !! "digits" with
            | None => Ok (Some (mkDescriptor label secret 6))
            | Some v =>
                match Py.int v with
                | Some n => Ok (Some (mkDescriptor label secret n))
                | None => Raise (ValueError v)
                end
            end
        end
  end.

(** ** The TOTP generator

    [pyotp] is not part of the repository's sources: the generator is
    written here from the specification (section 4.2), with SHA-1 from
    FIPS 180-4, HMAC from RFC 2104 and base32 from RFC 4648, which the
    specification names. Bytes are integers in [0, 256). *)

Module Sha1.

Definition w32 (x : Z) : Z := Z.land x 0xFFFFFFFF.

Definition rotl (n x : Z) : Z :=
  w32 (Z.lor (Z.shiftl x n) (Z.shiftr x (32 - n))).

(** The [n] low bytes of [x], most significant first. *)
Fixpoint be_bytes (n : nat) (x : Z) : list Z :=
  match n with
  | O => []
  | S n' => be_bytes n' (Z.shiftr x 8) ++ [Z.land x 0xFF]
  end.

(** Message padding: a one bit, zero bytes up to 56 modulo 64, and the
    bit length on 8 bytes. *)
Definition pad (msg : list Z) : list Z :=
  let len := Z.of_nat (length msg) in
  msg ++ [0x80] ++ repeat 0 (Z.to_nat ((55 - len) mod 64))
      ++ be_bytes 8 (8 * len).

Fixpoint words_of_bytes (bs : list Z) : list Z :=
  match bs with
  | a :: b :: c :: d :: rest =>
      Z.lor (Z.lor (Z.shiftl a 24) (Z.shiftl b 16)) (Z.lor (Z.shiftl c 8) d)
      :: words_of_bytes rest
  | _ => []
  end.

Record state : Type := mkState { ha : Z; hb : Z; hc : Z; hd : Z; he : Z }.

Definition init : state :=
  mkState 0x67452301 0xEFCDAB89 0x98BADCFE 0x10325476 0xC3D2E1F0.

Definition f (t : nat) (b c d : Z) : Z :=
  if (t <? 20)%nat then Z.lor (Z.land b c) (Z.land (Z.lxor b 0xFFFFFFFF) d)
  else if (t <? 40)%nat then Z.lxor (Z.lxor b c) d
  else if (t <? 60)%nat then
    Z.lor (Z.lor (Z.land b c) (Z.land b d)) (Z.land c d)
  else Z.lxor (Z.lxor b c) d.

Definition k (t : nat) : Z :=
  if (t <? 20)%nat then 0x5A827999
  else if (t <? 40)%nat then 0x6ED9EBA1
  else if (t <? 60)%nat then 0x8F1BBCDC
  else 0xCA62C1D6.

(** [n] rounds from round [t]; [w] is the window W[t], ..., W[t+15] of
    the message schedule. *)
Fixpoint rounds (n t : nat) (w : list Z) (s : state) : state :=
  match n with
  | O => s
  | S n' =>
      let wt := nth 0 w 0 in
      let temp := w32 (rotl 5 (ha s) + f t (hb s) (hc s) (hd s) + he s + k t + wt) in
      let wnext :=
        rotl 1 (Z.lxor (Z.lxor (nth 13 w 0) (nth 8 w 0))
                       (Z.lxor (nth 2 w 0) wt)) in
      rounds n' (S t) (tl w ++ [wnext])
        (mkState temp (ha s) (rotl 30 (hb s)) (hc s) (hd s))
  end.

Definition compress (h : state) (block : list Z) : state :=
  let s := rounds 80 0 block h in
  mkState (w32 (ha h + ha s)) (w32 (hb h + hb s)) (w32 (hc h + hc s))
          (w32 (hd h + hd s)) (w32 (he h + he s)).

Fixpoint blocks (n : nat) (ws : list Z) (h : state) : state :=
  match n with
  | O => h
  | S n' => blocks n' (drop 16 ws) (compress h (take 16 ws))
  end.

(** Modelled from the spec: the SHA-1 digest (20 bytes) behind the
    HMAC-SHA1 of section 4.2, which [pyotp] takes from [hashlib]. *)
Definition sha1 (msg : list Z) : list Z :=
  let ws := words_of_bytes (pad msg) in
  let h := blocks (length ws / 16) ws init in
  be_bytes 4 (ha h) ++ be_bytes 4 (hb h) ++ be_bytes 4 (hc h)
    ++ be_bytes 4 (hd h) ++ be_bytes 4 (he h).

(** Modelled from the spec: HMAC-SHA1 (RFC 2104, block size 64), which
    [pyotp] takes from [hmac]. *)
Definition hmac_sha1 (key msg : list Z) : list Z :=
  let key1 := if (64 <? length key)%nat then sha1 key else key in
  let key2 := key1 ++ repeat 0 (64 - length key1)%nat in
  sha1 (map (Z.lxor 0x5C) key2 ++ sha1 (map (Z.lxor 0x36) key2 ++ msg)).

End Sha1.

Module Generator.

(** *** Base32 *)

Definition upper_ascii (c : ascii) : ascii :=
  let n := N_of_ascii c in
  if ((97 <=? n) && (n <=? 122))%N then ascii_of_N (n - 32) else c.

(** The value of a character of the alphabet [A-Z2-7], in either case. *)
Definition b32_value (c : ascii) : option Z :=
  let n := N_of_ascii (upper_ascii c) in
  if ((65 <=? n) && (n <=? 90))%N then Some (Z.of_N n - 65)
  else if ((50 <=? n) && (n <=? 55))%N then Some (Z.of_N n - 24)
  else None.

Fixpoint b32_values (s : string) : option (list Z) :=
  match s with
  | EmptyString => Some []
  | String c s' =>
      match b32_value c, b32_values s' with
      | Some v, Some vs => Some (v :: vs)
      | _, _ => None
      end
  end.

Definition is_pad (c : ascii) : bool := Ascii.eqb c "=".

(** [s] without its trailing ['='] characters. *)
Fixpoint rstrip_pad (s : string) : string :=
  match s with
  | EmptyString => EmptyString
  | String c s' =>
      match rstrip_pad s' with
      | EmptyString => if is_pad c then EmptyString else String c EmptyString
      | r => String c r
      end
  end.

(** Modelled from the spec: base32 decoding of the secret (section 4.2,
    step 1), done by [pyotp]: case-insensitive, the secret is first
    padded with ['='] to a multiple of 8 characters; [None] is the
    [InvalidSecret] of the specification (a character outside [A-Z2-7],
    or a length that no RFC 4648 encoding has). *)
Definition b32decode (s : string) : option (list Z) :=
  let len := Z.of_nat (String.length s) in
  let padded_len := len + (8 - len mod 8) mod 8 in
  let data := rstrip_pad s in
  let n := Z.of_nat (String.length data) in
  let padchars := padded_len - n in
  match b32_values data with
  | None => None
  | Some vs =>
      if (padchars =? 0) || (padchars =? 1) || (padchars =? 3)
         || (padchars =? 4) || (padchars =? 6)
      then
        let acc := fold_left (fun a v => Z.lor (Z.shiftl a 5) v) vs 0 in
        let nbits := 5 * n in
        Some (Sha1.be_bytes (Z.to_nat (nbits / 8)) (Z.shiftr acc (nbits mod 8)))
      else None
  end.

(** *** HOTP *)

(** Modelled from the spec: dynamic truncation (section 4.2, step 3): the
    low nibble of the last byte is the offset of 4 bytes, read big-endian
    and masked to 31 bits. *)
Definition truncate (mac : list Z) : Z :=
  let offset := Z.to_nat (Z.land (List.last mac 0) 0xF) in
  let b i := nth (offset + i) mac 0 in
  Z.land
    (Z.lor (Z.lor (Z.shiftl (b 0%nat) 24) (Z.shiftl (b 1%nat) 16))
           (Z.lor (Z.shiftl (b 2%nat) 8) (b 3%nat)))
    0x7FFFFFFF.

Definition digit_char (d : Z) : ascii := ascii_of_N (Z.to_N (48 + d)).

(** The decimal numeral of [x >= 0], most significant digit first. *)
Fixpoint decimal_go (fuel : nat) (x : Z) (acc : string) : string :=
  match fuel with
  | O => acc
  | S fuel' =>
      let acc' := String (digit_char (x mod 10)) acc in
      if x <? 10 then acc' else decimal_go fuel' (x / 10) acc'
  end.

Definition decimal (x : Z) : string :=
  decimal_go (S (Z.to_nat (Z.log2 x))) x EmptyString.

Fixpoint zeros (n : nat) : string :=
  match n with
  | O => EmptyString
  | S n' => String "0" (zeros n')
  end.

(** Modelled from the spec: the code as a decimal string left-padded with
    ['0'] to [digits] characters (section 4.2, step 4). *)
Definition format_code (digits : Z) (x : Z) : string :=
  let s := decimal x in
  zeros (Z.to_nat digits - String.length s) +:+ s.

(** Modelled from the spec: the time counter with the fixed step of 30
    seconds (section 4.2, step 2); [/] on [Z] rounds down. *)
Definition counter (at_time : Z) : Z := at_time / 30.

(** Modelled from the spec: HOTP over HMAC-SHA1 (section 4.2, step 3). *)
Definition hotp (key : list Z) (c : Z) (digits : Z) : Z :=
  truncate (Sha1.hmac_sha1 key (Sha1.be_bytes 8 c)) mod 10 ^ digits.

(** Modelled from the spec: [generate(descriptor, at_time)] of section
    4.2, which stands for [pyotp.TOTP(secret, digits=digits)] with the
    clock at [at_time] (Unix seconds); its two error conditions are
    [InvalidDigits] (digits <= 0 or > 10) and [InvalidSecret]. *)
Definition generate (d : OtpDescriptor) (at_time : Z) : result string :=
  if (digits d <=? 0) || (10 <? digits d) then Raise InvalidDigits
  else
    match b32decode (secret d) with
    | None => Raise InvalidSecret
    | Some key =>
        Ok (format_code (digits d) (hotp key (counter at_time) (digits d)))
    end.

End Generator.

(** ** The clipboard and the terminal *)

(** What the run depends on outside the program. [which cmd] tells
    whether [shutil_which cmd] finds an executable on the PATH;
    [run_pipe argv text] is the return code of
    [Popen(argv, stdin=PIPE)] after [communicate(text)], and [None] when
    that raises; [pyperclip_copy text] is [false] when
    [pyperclip.copy text] raises. *)
Record env : Type := mkEnv {
  clock : Z;
  which : string -> bool;
  os_name_nt : bool;
  run_pipe : list string -> string -> option Z;
  pyperclip_available : bool;
  pyperclip_copy : string -> bool
}.

Definition copy_to_clipboard (e : env) (text : string) : bool :=
  let fallback :=
    if pyperclip_available e then pyperclip_copy e text else false in
  let windows :=
    if os_name_nt e && which e "clip" then
      match run_pipe e ["clip"] text with
      | Some rc => rc =? 0
      | None => fallback
      end
    else fallback in
  let macos :=
    if which e "pbcopy" then
      match run_pipe e ["pbcopy"] text with
      | Some rc => rc =? 0
      | None => windows
      end
    else windows in
  if which e "xclip" then
    match run_pipe e ["xclip"; "-selection"; "clipboard"] text with
    | Some rc => rc =? 0
    | None => macos
    end
  else macos.

Definition ESC : ascii := ascii_of_nat 27.
Definition GREEN : string := String ESC "[42m".
Definition RED : string := String ESC "[41m".
Definition RESET : string := String ESC "[0m".

Fixpoint spaces (n : nat) : string :=
  match n with
  | O => EmptyString
  | S n' => String " " (spaces n')
  end.

(** The line that [print_colored_box success] prints. *)
Definition colored_box (success : bool) : string :=
  (if success then GREEN else RED) +:+ spaces 40 +:+ RESET.

(** ** [search_and_generate_oauth] *)

(** What a run does, in order: a line taken from the file iterator, a
    call of the generator, a call of [copy_to_clipboard] with its
    result, a [print]. *)
Inductive event : Type :=
| EvRead (raw : string)
| EvGenerate (d : OtpDescriptor)
| EvCopy (text : string) (copied : bool)
| EvPrint (text : string).

(** A finished run: its events, the value returned or the exception
    raised, and the lines the iterator still holds. *)
Record outcome : Type := mkOutcome {
  trace : list event;
  returned : result bool;
  unread : list string
}.

Definition after (ev : event) (o : outcome) : outcome :=
  mkOutcome (ev :: trace o) (returned o) (unread o).

Fixpoint search_and_generate_oauth (e : env) (f : list string)
    (search_text : string) : outcome :=
  match f with
  | [] => mkOutcome [EvPrint (colored_box false)] (Ok false) []
  | raw :: rest =>
      after (EvRead raw)
        match parse_first_match raw search_text with
        | Raise x => mkOutcome [] (Raise x) rest
        | Ok None => search_and_generate_oauth e rest search_text
        | Ok (Some data) =>
            after (EvGenerate data)
              match Generator.generate data (clock e) with
              | Raise x => mkOutcome [] (Raise x) rest
              | Ok code =>
                  let copied := copy_to_clipboard e code in
                  mkOutcome
                    ([EvCopy code copied; EvPrint (colored_box copied)]
                       ++ (if copied then [] else [EvPrint code]))
                    (Ok true) rest
              end
        end
  end.

(** ** [shutil_which]

    What [shutil_which] reads from the operating system: the environment
    variables, [os.name], [os.pathsep] (one character), [os.path.join]
    on two paths, and the test
    [os.path.isfile(p) and os.access(p, os.X_OK)]. *)
Record os : Type := mkOs {
  environ : gmap string string;
  os_name : string;
  pathsep : ascii;
  path_join : string -> string -> string;
  is_executable_file : string -> bool
}.

(** [os.environ.get(key, default)] *)
Definition environ_get (o : os) (key default : string) : string :=
  match environ o !! key with
  | Some v => v
  | None => default
  end.

(** The inner loop [for ext in exts]. *)
Fixpoint which_in_exts (o : os) (candidate : string) (exts : list string)
  : option string :=
  match exts with
  | [] => None
  | ext :: rest =>
      let file_path := candidate +:+ ext in
      if is_executable_file o file_path then Some file_path
      else which_in_exts o candidate rest
  end.

(** The outer loop [for directory in path.split(os.pathsep)]. *)
Fixpoint which_in_dirs (o : os) (cmd : string) (exts dirs : list string)
  : option string :=
  match dirs with
  | [] => None
  | directory :: rest =>
      match which_in_exts o (path_join o directory cmd) exts with
      | Some file_path => Some file_path
      | None => which_in_dirs o cmd exts rest
      end
  end.

(** The list [exts] of [shutil_which]. *)
Definition which_exts (o : os) : list string :=
  if String.eqb (os_name o) "nt"
  then Py.split ";" (environ_get o "PATHEXT" ".EXE;.BAT;.CMD")
  else [EmptyString].

Definition shutil_which (o : os) (cmd : string) : option string :=
  which_in_dirs o cmd (which_exts o)
    (Py.split (pathsep o) (environ_get o "PATH" EmptyString)).

(** The truth value of an [Optional[str]] in an [if]. *)
Definition truthy (r : option string) : bool :=
  match r with
  | Some (String _ _) => true
  | _ => false
  end.

(** The environment of a run on the operating system [o]: [which] and
    [os_name_nt] are what [shutil_which] and [os.name] give there. *)
Definition env_on (o : os) (now : Z)
    (pipes : list string -> string -> option Z)
    (pyperclip : option (string -> bool)) : env :=
  mkEnv now (fun cmd => truthy (shutil_which o cmd))
    (String.eqb (os_name o) "nt") pipes
    (match pyperclip with Some _ => true | None => false end)
    (match pyperclip with Some copy => copy | None => fun _ => false end).

(** ** [copy_to_clipboard], with the tools it starts

    The same function as [copy_to_clipboard], which also lists, in order,
    the tools it starts: a command with its arguments, or [pyperclip]. *)
Inductive attempt : Type :=
| Piped (argv : list string)
| Pyperclip.

Definition try_pipe (e : env) (argv : list string) (text : string)
    (otherwise : list attempt * bool) : list attempt * bool :=
  match run_pipe e argv text with
  | Some rc => ([Piped argv], rc =? 0)
  | None => (Piped argv :: fst otherwise, snd otherwise)
  end.

Definition copy_to_clipboard_attempts (e : env) (text : string)
  : list attempt * bool :=
  let fallback :=
    if pyperclip_available e then ([Pyperclip], pyperclip_copy e text)
    else ([], false) in
  let windows :=
    if os_name_nt e && which e "clip"
    then try_pipe e ["clip"] text fallback else fallback in
  let macos :=
    if which e "pbcopy"
    then try_pipe e ["pbcopy"] text windows else windows in
  if which e "xclip"
  then try_pipe e ["xclip"; "-selection"; "clipboard"] text macos
  else macos.

(** ** [main]

    [parser.parse_args()] belongs to [argparse]: it either returns the two
    arguments or ends the program itself with a status (a usage error, a
    request for help) before [main] does anything else; what [argparse]
    writes then is its own and not among the events. A path is either no
    regular file, or a regular file that [open] refuses, or a text file
    with its raw lines. *)
Inductive parsed_args : Type :=
| Args (file_path search_text : string)
| ArgparseExit (code : Z).

Inductive file_state : Type :=
| NoFile
| Unreadable
| TextFile (lines : list string).

(** How the process ends: [sys.exit(code)], an exception of the run that
    nothing catches, or the [OSError] of [open]. *)
Inductive exit_status : Type :=
| Exit (code : Z)
| Uncaught (x : exn)
| OpenFailed.

Record main_outcome : Type := mkMain {
  main_trace : list event;
  main_status : exit_status
}.

Definition main (e : env) (files : string -> file_state)
    (parse_args : list string -> parsed_args) (argv : list string)
  : main_outcome :=
  match parse_args argv with
  | ArgparseExit code => mkMain [] (Exit code)
  | Args file_path search_text =>
      match files file_path with
      | NoFile =>
          mkMain [EvPrint ("File not found: " +:+ file_path)] (Exit 1)
      | Unreadable => mkMain [] OpenFailed
      | TextFile lines =>
          let o := search_and_generate_oauth e lines search_text in
          mkMain (trace o)
            match returned o with
            | Ok true => Exit 0
            | Ok false => Exit 2
            | Raise x => Uncaught x
            end
      end
  end.

(** * Notions used in the statements *)

(** Every character of [s] satisfies [cls]. *)
Fixpoint all_chars (cls : ascii -> bool) (s : string) : bool :=
  match s with
  | EmptyString => true
  | String c s' => cls c && all_chars cls s'
  end.

(** The longest prefix of [s] inside the class, and what follows it. *)
Fixpoint run_of (cls : ascii -> bool) (s : string) : string :=
  match s with
  | String c s' => if cls c then String c (run_of cls s') else EmptyString
  | EmptyString => EmptyString
  end.

Fixpoint after_run (cls : ascii -> bool) (s : string) : string :=
  match s with
  | String c s' => if cls c then after_run cls s' else s
  | EmptyString => EmptyString
  end.

Definition is_not (sep : ascii) (c : ascii) : bool := negb (Ascii.eqb c sep).

(** ["&".join(ps)] *)
Definition join (ps : list string) : string := String.concat "&" ps.

(** The (lowered) key that a pair sets, if it sets one. *)
Definition key_of (kv : string) : option string :=
  match Py.split_once "=" kv with
  | Some (k, _) => Some (Py.lower k)
  | None => None
  end.

(** The three filters of [parse_first_match]: the pattern is found, the
    label contains the needle, and [params] has a non-empty secret. *)
Definition passes_filters (line needle : string) : bool :=
  match Re.search line with
  | None => false
  | Some (lab, q) =>
      Py.contains (Py.lower needle) (Py.lower lab)
      && match parse_query q !! "secret" with
         | Some (String _ _) => true
         | _ => false
         end
  end.

Definition lines_read (tr : list event) : list string :=
  omap (fun ev => match ev with EvRead raw => Some raw | _ => None end) tr.

Definition generated (tr : list event) : list OtpDescriptor :=
  omap (fun ev => match ev with EvGenerate d => Some d | _ => None end) tr.

Definition copies (tr : list event) : list (string * bool) :=
  omap (fun ev => match ev with EvCopy t ok => Some (t, ok) | _ => None end) tr.

Definition printed (tr : list event) : list string :=
  omap (fun ev => match ev with EvPrint t => Some t | _ => None end) tr.

(** A run that skips the lines [pre] one after the other. *)
Definition skipping (pre : list string) (o : outcome) : outcome :=
  mkOutcome (map EvRead pre ++ trace o) (returned o) (unread o).

(** The value of a string of digits read after the value [acc]. *)
Fixpoint horner (s : string) (acc : Z) : Z :=
  match s with
  | EmptyString => acc
  | String c s' => horner s' (10 * acc + Py.digit_value c)
  end.

Definition bytes_of_string (s : string) : list Z :=
  map (fun c => Z.of_N (N_of_ascii c)) (String.list_ascii_of_string s).

(** An environment with no clipboard tool at all, at Unix time [t]. *)
Definition no_clipboard (t : Z) : env :=
  mkEnv t (fun _ => false) false (fun _ _ => None) false (fun _ => false).

(** What the code does after the generator returned [code]. *)
Definition deliver (e : env) (code : string) : list event :=
  let copied := copy_to_clipboard e code in
  [EvCopy code copied; EvPrint (colored_box copied)]
    ++ (if copied then [] else [EvPrint code]).

(** The four ways a run can go; [skipped l] says that
    [parse_first_match] returns [None] on [l]. *)
Definition skipped (needle l : string) : Prop :=
  parse_first_match l needle = Ok None.

Inductive run_shape (e : env) (needle : string) (f : list string)
  : outcome -> Prop :=
| RunNotFound :
    Forall (skipped needle) f ->
    run_shape e needle f
      (mkOutcome (map EvRead f ++ [EvPrint (colored_box false)]) (Ok false) [])
| RunParseError pre line post x :
    f = pre ++ line :: post -> Forall (skipped needle) pre ->
    parse_first_match line needle = Raise x ->
    run_shape e needle f
      (mkOutcome (map EvRead (pre ++ [line])) (Raise x) post)
| RunGeneratorError pre line post d x :
    f = pre ++ line :: post -> Forall (skipped needle) pre ->
    parse_first_match line needle = Ok (Some d) ->
    Generator.generate d (clock e) = Raise x ->
    run_shape e needle f
      (mkOutcome (map EvRead (pre ++ [line]) ++ [EvGenerate d]) (Raise x) post)
| RunFound pre line post d code :
    f = pre ++ line :: post -> Forall (skipped needle) pre ->
    parse_first_match line needle = Ok (Some d) ->
    Generator.generate d (clock e) = Ok code ->
    run_shape e needle f
      (mkOutcome
         (map EvRead (pre ++ [line]) ++ EvGenerate d :: deliver e code)
         (Ok true) post).

(** The number that a list of bytes writes, most significant first. *)
Definition be_value (bs : list Z) : Z :=
  fold_left (fun a b => a * 256 + b) bs 0.

Definition is_byte (b : Z) : Prop := 0 <= b < 256.

(** Case analysis on the comparisons of character codes. *)
Ltac n_cases :=
  repeat match goal with
         | |- context [(?a <=? ?b)%N] => destruct (N.leb_spec a b)
         | |- context [(?a =? ?b)%N] => destruct (N.eqb_spec a b)
         | H : context [(?a <=? ?b)%N] |- _ => destruct (N.leb_spec a b)
         | H : context [(?a =? ?b)%N] |- _ => destruct (N.eqb_spec a b)
         end;
  simpl in *; try reflexivity; try discriminate; try lia.

Ltac pow_consts :=
  change (2 ^ 8) with 256 in *; change (2 ^ 16) with 65536 in *;
  change (2 ^ 24) with 16777216 in *.

(** The arguments of the xclip command. *)
Definition xclip_argv : list string := ["xclip"; "-selection"; "clipboard"].

(** Case analysis on everything [copy_to_clipboard] asks the system. *)
Ltac clipboard_cases e text :=
  unfold copy_to_clipboard_attempts, copy_to_clipboard, try_pipe, xclip_argv;
  destruct (which e "xclip") eqn:?,
           (run_pipe e ["xclip"; "-selection"; "clipboard"] text) eqn:?,
           (which e "pbcopy") eqn:?,
           (run_pipe e ["pbcopy"] text) eqn:?,
           (os_name_nt e) eqn:?, (which e "clip") eqn:?,
           (run_pipe e ["clip"] text) eqn:?,
           (pyperclip_available e) eqn:?;
  simpl.

(** The paths that [shutil_which] tests, in the order of the two loops. *)
Definition which_dirs (o : os) : list string :=
  Py.split (pathsep o) (environ_get o "PATH" EmptyString).

Definition which_candidates (o : os) (cmd : string) : list string :=
  flat_map
    (fun directory =>
       map (fun ext => path_join o directory cmd +:+ ext) (which_exts o))
    (which_dirs o).

(** A POSIX system whose PATH is [/usr/bin:/bin], where [join] puts a
    slash between directory and command, and only [/bin/xclip] is
    executable. *)
Definition posix_example : os :=
  mkOs {["PATH" := "/usr/bin:/bin"]} "posix" ":"
    (fun d c => d +:+ "/" +:+ c) (String.eqb "/bin/xclip").

(** A system under [nt] whose PATH is one directory, without PATHEXT,
    where only [clip.EXE] in that directory is executable. *)
Definition nt_example : os :=
  mkOs {["PATH" := "C:/Windows/System32"]} "nt" ";"
    (fun d c => d +:+ "/" +:+ c) (String.eqb "C:/Windows/System32/clip.EXE").

(** * Properties *)

(** ** Strings *)

Section Strings.

Lemma sapp_nil_l (s : string) : "" +:+ s = s.
Proof. reflexivity. Qed.

Lemma sapp_cons (c : ascii) (s t : string) :
  String c s +:+ t = String c (s +:+ t).
Proof. reflexivity. Qed.

Lemma sapp_nil_r (s : string) : s +:+ "" = s.
Proof. induction s as [|c s IH]; [reflexivity|]. rewrite sapp_cons, IH. reflexivity. Qed.

Lemma sapp_assoc (s t u : string) : (s +:+ t) +:+ u = s +:+ (t +:+ u).
Proof.
  induction s as [|c s IH]; [reflexivity|].
  rewrite !sapp_cons, IH. reflexivity.
Qed.

Lemma sapp_snoc (s : string) (c : ascii) (t : string) :
  (s +:+ String c "") +:+ t = s +:+ String c t.
Proof. rewrite sapp_assoc. reflexivity. Qed.

Lemma slength_app (s t : string) :
  String.length (s +:+ t) = (String.length s + String.length t)%nat.
Proof.
  induction s as [|c s IH]; [reflexivity|].
  rewrite sapp_cons. simpl. rewrite IH. reflexivity.
Qed.

Lemma sapp_eq_nil (s t : string) : s +:+ t = "" -> s = "" /\ t = "".
Proof. destruct s; [auto | rewrite sapp_cons; discriminate]. Qed.

Lemma all_chars_app cls (s t : string) :
  all_chars cls (s +:+ t) = all_chars cls s && all_chars cls t.
Proof.
  induction s as [|c s IH]; [reflexivity|].
  rewrite sapp_cons. simpl. rewrite IH, andb_assoc. reflexivity.
Qed.

Lemma run_of_after_run cls (s : string) : run_of cls s +:+ after_run cls s = s.
Proof.
  induction s as [|c s IH]; [reflexivity|]. simpl.
  destruct (cls c); [rewrite sapp_cons, IH|]; reflexivity.
Qed.

Lemma all_chars_run_of cls (s : string) : all_chars cls (run_of cls s) = true.
Proof.
  induction s as [|c s IH]; [reflexivity|]. simpl.
  destruct (cls c) eqn:E; simpl; [rewrite E, IH|]; reflexivity.
Qed.

Lemma after_run_head cls (s : string) c r :
  after_run cls s = String c r -> cls c = false.
Proof.
  induction s as [|a s IH]; simpl; [discriminate|].
  destruct (cls a) eqn:E; [exact IH|]. intros [= <- <-]. exact E.
Qed.

Lemma run_of_app_stop cls (s : string) c r :
  all_chars cls s = true -> cls c = false ->
  run_of cls (s +:+ String c r) = s /\ after_run cls (s +:+ String c r) = String c r.
Proof.
  intros Hs Hc. induction s as [|a s IH].
  - rewrite sapp_nil_l. simpl. rewrite Hc. auto.
  - simpl in Hs. apply andb_true_iff in Hs as [Ha Hs].
    rewrite sapp_cons. simpl. rewrite Ha.
    destruct (IH Hs) as [-> ->]. auto.
Qed.

Lemma run_of_all cls (s : string) :
  all_chars cls s = true -> run_of cls s = s /\ after_run cls s = "".
Proof.
  induction s as [|a s IH]; simpl; [auto|].
  intros [Ha Hs]%andb_true_iff. rewrite Ha.
  destruct (IH Hs) as [-> ->]. auto.
Qed.

Lemma run_of_app_prefix cls (s t : string) :
  all_chars cls s = true -> run_of cls (s +:+ t) = s +:+ run_of cls t.
Proof.
  induction s as [|a s IH]; simpl; [reflexivity|].
  intros [Ha Hs]%andb_true_iff. rewrite !sapp_cons. simpl.
  rewrite Ha, (IH Hs). reflexivity.
Qed.

End Strings.

(** ** The regular expression *)

Section Regex.

Import Re.

(** A greedy [+] whose continuation always accepts takes the longest run. *)
Lemma plus_greedy_total {A} cls (g : string -> A) (taken s : string) :
  plus_greedy cls (fun q _ => Some (g q)) taken s =
  match run_of cls s with
  | EmptyString => None
  | String _ _ as r => Some (g (taken +:+ r))
  end.
Proof.
  revert taken. induction s as [|c s IH]; intros taken; simpl; [reflexivity|].
  destruct (cls c); [|reflexivity].
  rewrite IH. destruct (run_of cls s) as [|a r].
  - reflexivity.
  - rewrite sapp_snoc. reflexivity.
Qed.

(** A greedy [+] whose continuation refuses every text that starts inside
    the class never stops before the end of the longest run. *)
Lemma plus_greedy_stop {A} cls (k : string -> string -> option A)
    (taken s : string) :
  (forall t c r, cls c = true -> k t (String c r) = None) ->
  plus_greedy cls k taken s =
  match run_of cls s with
  | EmptyString => None
  | String _ _ as r => k (taken +:+ r) (after_run cls s)
  end.
Proof.
  intros Hk. revert taken. induction s as [|c s IH]; intros taken; simpl;
    [reflexivity|].
  destruct (cls c) eqn:Ec; [|reflexivity].
  rewrite IH. destruct s as [|a s']; simpl.
  - reflexivity.
  - destruct (cls a) eqn:Ea.
    + rewrite sapp_snoc.
      destruct (k _ _) eqn:Ek; [reflexivity|].
      apply Hk. exact Ea.
    + reflexivity.
Qed.

Lemma not_question_false c : not_question c = false -> c = "?"%char.
Proof.
  unfold not_question. intros H. apply negb_false_iff in H.
  apply Ascii.eqb_eq in H. exact H.
Qed.

(** [match_here] in closed form: the label is the longest run without
    ['?'] after the marker, the query the longest run without white space
    after the ['?'] that ends the label. *)
Lemma match_here_runs (s : string) :
  match_here s =
  match literal_ignorecase marker s with
  | None => None
  | Some s1 =>
      match run_of not_question s1, after_run not_question s1 with
      | String _ _ as lab, String _ s3 =>
          match run_of not_space s3 with
          | EmptyString => None
          | String _ _ as q => Some (lab, q)
          end
      | _, _ => None
      end
  end.
Proof.
  unfold match_here. destruct (literal_ignorecase marker s) as [s1|]; [|reflexivity].
  rewrite plus_greedy_stop.
  - destruct (run_of not_question s1) as [|a lab] eqn:Er; [reflexivity|].
    destruct (after_run not_question s1) as [|c s3] eqn:Ea; [reflexivity|].
    apply after_run_head in Ea as Hc. apply not_question_false in Hc. subst c.
    simpl. rewrite plus_greedy_total.
    destruct (run_of not_space s3); reflexivity.
  - intros t c r Hc. unfold not_question in Hc.
    apply negb_true_iff in Hc. rewrite Hc. reflexivity.
Qed.

Lemma literal_ignorecase_sound (pat s r : string) :
  literal_ignorecase pat s = Some r ->
  exists m, s = m +:+ r /\ Py.lower m = Py.lower pat.
Proof.
  revert s. induction pat as [|p pat IH]; intros s; simpl.
  - intros [= ->]. exists "". auto.
  - destruct s as [|c s]; [discriminate|].
    destruct (Ascii.eqb _ _) eqn:E; [|discriminate].
    intros H. apply IH in H as (m & -> & Hm). apply Ascii.eqb_eq in E.
    exists (String c m). simpl. rewrite E, Hm. auto.
Qed.

Lemma literal_ignorecase_complete (pat m r : string) :
  Py.lower m = Py.lower pat -> literal_ignorecase pat (m +:+ r) = Some r.
Proof.
  revert m. induction pat as [|p pat IH]; intros [|c m]; simpl; try discriminate.
  - reflexivity.
  - intros [= Hc Hm]. rewrite ?sapp_cons; simpl; rewrite Hc, Ascii.eqb_refl. apply IH, Hm.
Qed.

Lemma search_unfold (s : string) :
  search s =
  match match_here s with
  | Some m => Some m
  | None => match s with
            | EmptyString => None
            | String _ s' => search s'
            end
  end.
Proof. destruct s; reflexivity. Qed.

Lemma search_sound (s : string) m :
  search s = Some m -> exists pre t, s = pre +:+ t /\ match_here t = Some m.
Proof.
  induction s as [|c s IH]; rewrite search_unfold.
  - discriminate.
  - destruct (match_here (String c s)) eqn:E.
    + intros [= <-]. exists "", (String c s). auto.
    + intros H. apply IH in H as (pre & t & -> & Ht).
      exists (String c pre), t. auto.
Qed.

Lemma search_here (s : string) m : match_here s = Some m -> search s = Some m.
Proof. intros H. rewrite search_unfold, H. reflexivity. Qed.

Lemma search_complete (pre t : string) :
  match_here t <> None -> search (pre +:+ t) <> None.
Proof.
  intros Ht. induction pre as [|c pre IH].
  - rewrite sapp_nil_l. destruct (match_here t) eqn:E; [|congruence].
    rewrite (search_here _ _ E). congruence.
  - rewrite sapp_cons, search_unfold.
    destruct (match_here (String c (pre +:+ t))); [intros [=]|exact IH].
Qed.

Lemma lower_marker : Py.lower marker = marker.
Proof. reflexivity. Qed.

(** The groups of a match at the head of the text. *)
Lemma match_here_exact (m lab q post : string) :
  Py.lower m = marker ->
  lab <> "" -> all_chars not_question lab = true ->
  q <> "" -> all_chars not_space q = true ->
  run_of not_space post = "" ->
  match_here (m +:+ lab +:+ String "?" (q +:+ post)) = Some (lab, q).
Proof.
  intros Hm Hl1 Hl2 Hq1 Hq2 Hpost.
  rewrite match_here_runs, literal_ignorecase_complete by (rewrite Hm; reflexivity).
  destruct (run_of_app_stop not_question lab "?" (q +:+ post) Hl2 eq_refl) as [-> ->].
  destruct lab as [|a lab]; [congruence|].
  rewrite (run_of_app_prefix _ _ _ Hq2), Hpost, sapp_nil_r.
  destruct q; [congruence|reflexivity].
Qed.

(** What a match found by [search] looks like in the line. *)
Lemma search_shape (s lab q : string) :
  search s = Some (lab, q) ->
  exists pre m post,
    s = pre +:+ m +:+ lab +:+ String "?" (q +:+ post)
    /\ Py.lower m = marker
    /\ lab <> "" /\ all_chars not_question lab = true
    /\ q <> "" /\ all_chars not_space q = true.
Proof.
  intros H. apply search_sound in H as (pre & t & -> & Ht).
  rewrite match_here_runs in Ht.
  destruct (literal_ignorecase marker t) as [s1|] eqn:El; [|discriminate].
  apply literal_ignorecase_sound in El as (m & -> & Hm).
  destruct (run_of not_question s1) as [|a l] eqn:Er; [discriminate|].
  destruct (after_run not_question s1) as [|c s3] eqn:Ea; [discriminate|].
  destruct (run_of not_space s3) as [|b q'] eqn:Eq; [discriminate|].
  injection Ht as <- <-.
  apply after_run_head in Ea as Hc. apply not_question_false in Hc. subst c.
  exists pre, m, (after_run not_space s3).
  rewrite <- Eq, run_of_after_run, <- Ea, <- Er, run_of_after_run.
  repeat split; try assumption.
  - rewrite Er. discriminate.
  - apply all_chars_run_of.
  - rewrite Eq. discriminate.
  - apply all_chars_run_of.
Qed.

End Regex.

Section MatchShape.

Import Re.

(** The groups of a match at the head of the text, whatever follows. *)
Lemma match_here_groups (m lab q post : string) :
  Py.lower m = marker ->
  lab <> "" -> all_chars not_question lab = true ->
  q <> "" -> all_chars not_space q = true ->
  match_here (m +:+ lab +:+ String "?" (q +:+ post))
  = Some (lab, q +:+ run_of not_space post).
Proof.
  intros Hm Hl1 Hl2 Hq1 Hq2.
  rewrite match_here_runs, literal_ignorecase_complete by (rewrite Hm; reflexivity).
  destruct (run_of_app_stop not_question lab "?" (q +:+ post) Hl2 eq_refl) as [-> ->].
  destruct lab as [|a lab]; [congruence|].
  rewrite (run_of_app_prefix _ _ _ Hq2).
  destruct q as [|b q]; [congruence|]. reflexivity.
Qed.

Lemma match_here_to_end (m lab q : string) :
  Py.lower m = marker ->
  lab <> "" -> all_chars not_question lab = true ->
  q <> "" -> all_chars not_space q = true ->
  match_here (m +:+ lab +:+ String "?" q) = Some (lab, q).
Proof.
  intros Hm Hl1 Hl2 Hq1 Hq2.
  rewrite <- (sapp_nil_r q) at 1.
  rewrite (match_here_groups m lab q "" Hm Hl1 Hl2 Hq1 Hq2).
  simpl. rewrite sapp_nil_r. reflexivity.
Qed.

End MatchShape.

(** ** Splitting and the parameter dictionary *)

Section Params.

Lemma split_go_no_sep sep (cur a : string) :
  all_chars (is_not sep) a = true -> Py.split_go sep cur a = [cur +:+ a].
Proof.
  revert cur. induction a as [|c a IH]; intros cur; simpl.
  - rewrite sapp_nil_r. reflexivity.
  - intros [Hc Ha]%andb_true_iff. unfold is_not in Hc.
    apply negb_true_iff in Hc. rewrite Hc, (IH _ Ha), sapp_snoc. reflexivity.
Qed.

Lemma split_go_app sep (cur a b : string) :
  all_chars (is_not sep) a = true ->
  Py.split_go sep cur (a +:+ String sep b) = (cur +:+ a) :: Py.split_go sep "" b.
Proof.
  revert cur. induction a as [|c a IH]; intros cur.
  - intros _. rewrite sapp_nil_l, sapp_nil_r. simpl.
    rewrite Ascii.eqb_refl. reflexivity.
  - simpl. intros [Hc Ha]%andb_true_iff. unfold is_not in Hc.
    apply negb_true_iff in Hc. rewrite ?sapp_cons. simpl.
    rewrite Hc, (IH _ Ha), sapp_snoc. reflexivity.
Qed.

Lemma split_join (ps : list string) :
  ps <> [] -> Forall (fun p => all_chars (is_not "&") p = true) ps ->
  Py.split "&" (join ps) = ps.
Proof.
  unfold Py.split, join.
  induction ps as [|p ps IH]; [congruence|]. intros _ Hps.
  inversion Hps as [|? ? Hp Hps']; subst.
  destruct ps as [|p' ps].
  - simpl. rewrite (split_go_no_sep _ _ _ Hp). reflexivity.
  - change (String.concat "&" (p :: p' :: ps))
      with (p +:+ String "&" (String.concat "&" (p' :: ps))).
    rewrite (split_go_app _ _ _ _ Hp), sapp_nil_l, IH by (congruence || assumption).
    reflexivity.
Qed.

Lemma split_once_app sep (k v : string) :
  all_chars (is_not sep) k = true ->
  Py.split_once sep (k +:+ String sep v) = Some (k, v).
Proof.
  induction k as [|c k IH].
  - intros _. rewrite sapp_nil_l. simpl. rewrite Ascii.eqb_refl. reflexivity.
  - simpl. intros [Hc Hk]%andb_true_iff. unfold is_not in Hc.
    apply negb_true_iff in Hc. rewrite ?sapp_cons. simpl.
    rewrite Hc, (IH Hk). reflexivity.
Qed.

Lemma split_once_none sep (s : string) :
  Py.split_once sep s = None <-> all_chars (is_not sep) s = true.
Proof.
  induction s as [|c s IH]; simpl; [tauto|].
  unfold is_not at 1. destruct (Ascii.eqb c sep); simpl.
  - split; discriminate.
  - destruct (Py.split_once sep s) as [[k v]|]; rewrite <- IH; split;
      congruence.
Qed.

Lemma split_once_sound sep (s k v : string) :
  Py.split_once sep s = Some (k, v) ->
  s = k +:+ String sep v /\ all_chars (is_not sep) k = true.
Proof.
  revert k. induction s as [|c s IH]; intros k; simpl; [discriminate|].
  destruct (Ascii.eqb c sep) eqn:E.
  - intros [= <- <-]. apply Ascii.eqb_eq in E. subst. auto.
  - destruct (Py.split_once sep s) as [[k' v']|]; [|discriminate].
    intros [= <- <-]. destruct (IH k' eq_refl) as [-> Hk].
    simpl. unfold is_not at 1. rewrite E. auto.
Qed.

Lemma add_param_other (params : gmap string string) kv key :
  key_of kv <> Some key -> add_param params kv !! key = params !! key.
Proof.
  unfold key_of, add_param.
  destruct (Py.split_once "=" kv) as [[k v]|]; [|reflexivity].
  intros H. apply lookup_insert_ne. congruence.
Qed.

Lemma params_others (ps : list string) (params : gmap string string) key :
  Forall (fun kv => key_of kv <> Some key) ps ->
  foldl add_param params ps !! key = params !! key.
Proof.
  revert params. induction ps as [|p ps IH]; intros params Hps; [reflexivity|].
  inversion Hps; subst. simpl. rewrite IH by assumption.
  apply add_param_other. assumption.
Qed.

Lemma params_agree (ps : list string) (m1 m2 : gmap string string) key :
  m1 !! key = m2 !! key ->
  foldl add_param m1 ps !! key = foldl add_param m2 ps !! key.
Proof.
  revert m1 m2. induction ps as [|p ps IH]; intros m1 m2 H; [exact H|].
  simpl. apply IH. unfold add_param.
  destruct (Py.split_once "=" p) as [[k v]|]; [|exact H].
  destruct (decide (Py.lower k = key)) as [->|Hne].
  - rewrite !lookup_insert_eq. reflexivity.
  - rewrite !lookup_insert_ne by assumption. exact H.
Qed.

Lemma parse_query_join (ps : list string) :
  Forall (fun p => all_chars (is_not "&") p = true) ps ->
  parse_query (join ps) = foldl add_param ∅ ps.
Proof.
  intros Hps. unfold parse_query. destruct ps as [|p ps]; [reflexivity|].
  rewrite split_join by (congruence || assumption). reflexivity.
Qed.

End Params.

(** ** The extractor *)

Section Extractor.

Lemma parse_first_match_none (line needle : string) :
  parse_first_match line needle = Ok None <-> passes_filters line needle = false.
Proof.
  unfold parse_first_match, passes_filters.
  destruct (Re.search line) as [[lab q]|]; [|tauto].
  destruct (Py.contains _ _); simpl; [|tauto].
  destruct (parse_query q !! "secret") as [[|c s]|]; try tauto.
  destruct (parse_query q !! "digits") as [v|]; [destruct (Py.int v)|];
    split; discriminate.
Qed.

(** The result on a line where the pattern is found. *)
Lemma parse_first_match_found (line needle lab q : string) :
  Re.search line = Some (lab, q) ->
  parse_first_match line needle =
  if negb (Py.contains (Py.lower needle) (Py.lower lab)) then Ok None
  else
    match parse_query q !! "secret" with
    | None => Ok None
    | Some EmptyString => Ok None
    | Some secret =>
        match parse_query q !! "digits" with
        | None => Ok (Some (mkDescriptor lab secret 6))
        | Some v =>
            match Py.int v with
            | Some n => Ok (Some (mkDescriptor lab secret n))
            | None => Raise (ValueError v)
            end
        end
    end.
Proof. intros H. unfold parse_first_match. rewrite H. reflexivity. Qed.

Lemma parse_first_match_some (line needle : string) d :
  parse_first_match line needle = Ok (Some d) ->
  exists q,
    Re.search line = Some (label d, q)
    /\ Py.contains (Py.lower needle) (Py.lower (label d)) = true
    /\ parse_query q !! "secret" = Some (secret d)
    /\ secret d <> ""
    /\ match parse_query q !! "digits" with
       | None => digits d = 6
       | Some v => Py.int v = Some (digits d)
       end.
Proof.
  unfold parse_first_match.
  destruct (Re.search line) as [[lab q]|]; [|discriminate].
  destruct (Py.contains _ _) eqn:Ec; simpl; [|discriminate].
  destruct (parse_query q !! "secret") as [[|c s]|] eqn:Es; try discriminate.
  destruct (parse_query q !! "digits") as [v|] eqn:Ed.
  - destruct (Py.int v) eqn:Ei; [|discriminate].
    intros [= <-]. exists q. simpl. rewrite Ed. repeat split; done.
  - intros [= <-]. exists q. simpl. rewrite Ed. repeat split; done.
Qed.

End Extractor.

(** ** The pipeline *)

Section Pipeline.

Lemma run_skip e raw rest needle :
  parse_first_match raw needle = Ok None ->
  search_and_generate_oauth e (raw :: rest) needle =
  after (EvRead raw) (search_and_generate_oauth e rest needle).
Proof. intros H. simpl. rewrite H. reflexivity. Qed.

Lemma run_skip_prefix e pre f needle :
  Forall (fun l => parse_first_match l needle = Ok None) pre ->
  search_and_generate_oauth e (pre ++ f) needle =
  skipping pre (search_and_generate_oauth e f needle).
Proof.
  induction 1 as [|l pre Hl Hpre IH]; simpl app.
  - unfold skipping. simpl. destruct (search_and_generate_oauth e f needle).
    reflexivity.
  - rewrite (run_skip _ _ _ _ Hl), IH. reflexivity.
Qed.

Lemma lines_read_reads (ls : list string) tr :
  lines_read (map EvRead ls ++ tr) = ls ++ lines_read tr.
Proof. induction ls as [|l ls IH]; simpl; [|rewrite IH]; reflexivity. Qed.

Lemma generated_reads (ls : list string) tr :
  generated (map EvRead ls ++ tr) = generated tr.
Proof. induction ls as [|l ls IH]; simpl; [reflexivity|exact IH]. Qed.

Lemma copies_reads (ls : list string) tr :
  copies (map EvRead ls ++ tr) = copies tr.
Proof. induction ls as [|l ls IH]; simpl; [reflexivity|exact IH]. Qed.

Lemma printed_reads (ls : list string) tr :
  printed (map EvRead ls ++ tr) = printed tr.
Proof. induction ls as [|l ls IH]; simpl; [reflexivity|exact IH]. Qed.

(** The run on a source whose first line is the one that yields [d]. *)
Lemma run_hit e line rest needle d :
  parse_first_match line needle = Ok (Some d) ->
  search_and_generate_oauth e (line :: rest) needle =
  after (EvRead line) (after (EvGenerate d)
    match Generator.generate d (clock e) with
    | Raise x => mkOutcome [] (Raise x) rest
    | Ok code =>
        let copied := copy_to_clipboard e code in
        mkOutcome
          ([EvCopy code copied; EvPrint (colored_box copied)]
             ++ (if copied then [] else [EvPrint code]))
          (Ok true) rest
    end).
Proof. intros H. simpl. rewrite H. reflexivity. Qed.

Lemma run_raise e line rest needle x :
  parse_first_match line needle = Raise x ->
  search_and_generate_oauth e (line :: rest) needle =
  mkOutcome [EvRead line] (Raise x) rest.
Proof. intros H. simpl. rewrite H. reflexivity. Qed.

(** Every source splits at its first line that is not skipped, if any. *)
Lemma source_split (f : list string) needle :
  Forall (fun l => parse_first_match l needle = Ok None) f
  \/ exists pre line post,
       f = pre ++ line :: post
       /\ Forall (fun l => parse_first_match l needle = Ok None) pre
       /\ parse_first_match line needle <> Ok None.
Proof.
  induction f as [|l f IH]; [left; constructor|].
  destruct (parse_first_match l needle) as [[d|]|x] eqn:El.
  - right. exists [], l, f. repeat split; [constructor | congruence].
  - destruct IH as [IH|(pre & line & post & -> & Hpre & Hline)].
    + left. constructor; assumption.
    + right. exists (l :: pre), line, post.
      repeat split; [constructor; assumption | assumption].
  - right. exists [], l, f. repeat split; [constructor | congruence].
Qed.

Lemma run_no_match e (f : list string) needle :
  Forall (fun l => parse_first_match l needle = Ok None) f ->
  search_and_generate_oauth e f needle =
  mkOutcome (map EvRead f ++ [EvPrint (colored_box false)]) (Ok false) [].
Proof.
  intros H. rewrite <- (app_nil_r f) at 1.
  rewrite (run_skip_prefix _ _ _ _ H). reflexivity.
Qed.

End Pipeline.

(** ** The generator *)

Section GeneratorFacts.

Import Generator.

Lemma digit_char_cases (d : Z) :
  0 <= d < 10 ->
  Py.is_digit (digit_char d) = true /\ Py.digit_value (digit_char d) = d.
Proof.
  intros H.
  assert (d = 0 \/ d = 1 \/ d = 2 \/ d = 3 \/ d = 4 \/ d = 5 \/ d = 6
          \/ d = 7 \/ d = 8 \/ d = 9) as Hd by lia.
  repeat (destruct Hd as [->|Hd]; [split; reflexivity|]).
  subst. split; reflexivity.
Qed.

Lemma is_digit_not_space c : Py.is_digit c = true -> Py.int_isspace c = false.
Proof. unfold Py.is_digit, Py.int_isspace. intros H. n_cases. Qed.

Lemma is_digit_not_char c a :
  Py.is_digit a = false -> Py.is_digit c = true -> Ascii.eqb c a = false.
Proof.
  intros Ha Hc. destruct (Ascii.eqb_spec c a); [|reflexivity]. congruence.
Qed.

Lemma horner_app (s t : string) acc : horner (s +:+ t) acc = horner t (horner s acc).
Proof.
  revert acc. induction s as [|c s IH]; intros acc; [reflexivity|].
  rewrite sapp_cons. simpl. apply IH.
Qed.

Lemma horner_zeros n : horner (zeros n) 0 = 0.
Proof. induction n as [|n IH]; [reflexivity|exact IH]. Qed.

Lemma all_digits_zeros n : all_chars Py.is_digit (zeros n) = true.
Proof. induction n as [|n IH]; [reflexivity|exact IH]. Qed.

Lemma length_zeros n : String.length (zeros n) = n.
Proof. induction n as [|n IH]; [reflexivity|simpl; rewrite IH; reflexivity]. Qed.

Lemma scan_all_digits (s : string) b acc cnt :
  all_chars Py.is_digit s = true ->
  Py.scan_digits s b acc cnt
  = (if (String.length s =? 0)%nat && b then None
     else Some (horner s acc, (cnt + N.of_nat (String.length s))%N, "")).
Proof.
  revert b acc cnt. induction s as [|c s IH]; intros b acc cnt; simpl.
  - intros _. destruct b; [reflexivity|]. rewrite N.add_0_r. reflexivity.
  - intros [Hc Hs]%andb_true_iff. rewrite Hc, (IH _ _ _ Hs).
    rewrite andb_false_r. do 3 f_equal. lia.
Qed.

(** [int] reads a non-empty string of at most 4300 digits as its value. *)
Lemma int_all_digits (s : string) :
  all_chars Py.is_digit s = true -> s <> "" ->
  (String.length s <= 4300)%nat ->
  Py.int s = Some (horner s 0).
Proof.
  intros Hs Hne Hlen. destruct s as [|c s]; [congruence|].
  pose proof Hs as Hs'. simpl in Hs'. apply andb_true_iff in Hs' as [Hc _].
  unfold Py.int. simpl Py.lstrip. rewrite (is_digit_not_space _ Hc).
  simpl Py.starts_with_char.
  rewrite (is_digit_not_char c "+" eq_refl Hc), (is_digit_not_char c "-" eq_refl Hc).
  unfold Py.int_unsigned. simpl Py.starts_with_char.
  rewrite (is_digit_not_char c "_" eq_refl Hc), (scan_all_digits _ _ _ _ Hs).
  simpl andb. rewrite N.add_0_l.
  destruct (N.eqb_spec (N.of_nat (String.length (String c s))) 0) as [E|_];
    [simpl in E; lia|].
  unfold Py.int_max_str_digits.
  destruct (N.ltb_spec 4300 (N.of_nat (String.length (String c s)))); [lia|].
  reflexivity.
Qed.

(** The numeral written by [decimal_go] with enough fuel. *)
Lemma decimal_go_numeral (fuel : nat) : forall (x : Z) (acc : string) (n : nat),
  0 <= x < 10 ^ Z.of_nat (S fuel) -> x < 10 ^ Z.of_nat (S n) ->
  exists ds,
    decimal_go (S fuel) x acc = ds +:+ acc
    /\ all_chars Py.is_digit ds = true
    /\ (1 <= String.length ds <= S n)%nat
    /\ forall a, horner ds a = a * 10 ^ Z.of_nat (String.length ds) + x.
Proof.
  induction fuel as [|fuel IH]; intros x acc n Hx Hn.
  - assert (x < 10) as Hlt by (change (10 ^ Z.of_nat 1) with 10 in Hx; lia).
    exists (String (digit_char (x mod 10)) ""). simpl.
    destruct (Z.ltb_spec x 10); [|lia].
    rewrite Z.mod_small by lia.
    destruct (digit_char_cases x ltac:(lia)) as [Hd Hv].
    refine (conj _ (conj _ (conj _ _))).
    + reflexivity.
    + rewrite Hd. reflexivity.
    + lia.
    + intros a. rewrite Hv. change (10 ^ Z.of_nat 1) with 10. lia.
  - change (decimal_go (S (S fuel)) x acc)
      with (let acc' := String (digit_char (x mod 10)) acc in
            if x <? 10 then acc' else decimal_go (S fuel) (x / 10) acc').
    cbv zeta. destruct (digit_char_cases (x mod 10)) as [Hd Hv].
    { apply Z.mod_pos_bound. lia. }
    destruct (Z.ltb_spec x 10) as [Hlt|Hge].
    + exists (String (digit_char (x mod 10)) ""). simpl.
      rewrite Hd, Hv, Z.mod_small by lia.
      refine (conj _ (conj _ (conj _ _))); try reflexivity; lia.
    + destruct n as [|n].
      { change (10 ^ Z.of_nat 1) with 10 in Hn. lia. }
      assert (0 <= x / 10 < 10 ^ Z.of_nat (S fuel)) as Hx'.
      { split; [apply Z.div_pos; lia|].
        apply Z.div_lt_upper_bound; [lia|].
        rewrite <- Z.pow_succ_r by lia. rewrite <- Nat2Z.inj_succ. lia. }
      assert (x / 10 < 10 ^ Z.of_nat (S n)) as Hn'.
      { apply Z.div_lt_upper_bound; [lia|].
        rewrite <- Z.pow_succ_r by lia. rewrite <- Nat2Z.inj_succ. lia. }
      destruct (IH (x / 10) (String (digit_char (x mod 10)) acc) n Hx' Hn')
        as (ds & -> & Hds & Hlen & Hval).
      exists (ds +:+ String (digit_char (x mod 10)) "").
      rewrite sapp_snoc, all_chars_app, slength_app, Hds. simpl.
      rewrite Hd.
      refine (conj _ (conj _ (conj _ _))); try reflexivity; try lia.
      intros a. rewrite horner_app, Hval. simpl. rewrite Hv.
      replace (Z.of_nat (String.length ds + 1)) with (Z.succ (Z.of_nat (String.length ds))) by lia.
      rewrite Z.pow_succ_r by lia.
      pose proof (Z.div_mod x 10 ltac:(lia)). lia.
Qed.

Lemma decimal_numeral (x : Z) (n : nat) :
  0 <= x < 10 ^ Z.of_nat (S n) ->
  all_chars Py.is_digit (decimal x) = true
  /\ (1 <= String.length (decimal x) <= S n)%nat
  /\ horner (decimal x) 0 = x.
Proof.
  intros Hx. unfold decimal.
  destruct (decimal_go_numeral (Z.to_nat (Z.log2 x)) x "" n) as (ds & -> & Hd & Hl & Hv).
  - split; [lia|]. rewrite Nat2Z.inj_succ, Z2Nat.id by apply Z.log2_nonneg.
    destruct (Z.eq_dec x 0) as [->|Hne]; [reflexivity|].
    apply Z.lt_le_trans with (2 ^ Z.succ (Z.log2 x)).
    + apply Z.log2_spec. lia.
    + apply Z.pow_le_mono_l. pose proof (Z.log2_nonneg x). lia.
  - lia.
  - rewrite sapp_nil_r. repeat split; try assumption; try lia.
    rewrite Hv. lia.
Qed.

(** The formatted code: exactly [digits] decimal digits that read back
    as the number. *)
Lemma format_code_numeral (digits x : Z) :
  0 < digits <= 10 -> 0 <= x < 10 ^ digits ->
  String.length (format_code digits x) = Z.to_nat digits
  /\ all_chars Py.is_digit (format_code digits x) = true
  /\ Py.int (format_code digits x) = Some x.
Proof.
  intros Hd Hx. unfold format_code.
  destruct (decimal_numeral x (Nat.pred (Z.to_nat digits))) as (Hds & Hlen & Hval).
  { replace (Z.of_nat (S (Nat.pred (Z.to_nat digits)))) with digits by lia. exact Hx. }
  assert (String.length (zeros (Z.to_nat digits - String.length (decimal x)) +:+ decimal x)
          = Z.to_nat digits) as Hl.
  { rewrite slength_app, length_zeros. lia. }
  assert (all_chars Py.is_digit
            (zeros (Z.to_nat digits - String.length (decimal x)) +:+ decimal x) = true) as Ha.
  { rewrite all_chars_app, all_digits_zeros, Hds. reflexivity. }
  repeat split; try assumption.
  rewrite int_all_digits.
  - rewrite horner_app, horner_zeros, Hval. reflexivity.
  - exact Ha.
  - intros E. rewrite E in Hl. simpl in Hl. lia.
  - rewrite Hl. lia.
Qed.

Lemma length_be_bytes n x : length (Sha1.be_bytes n x) = n.
Proof.
  revert x. induction n as [|n IH]; intros x; [reflexivity|].
  simpl. rewrite length_app, IH. simpl. lia.
Qed.

Lemma length_sha1 msg : length (Sha1.sha1 msg) = 20%nat.
Proof. unfold Sha1.sha1. rewrite !length_app, !length_be_bytes. reflexivity. Qed.

Lemma length_hmac_sha1 key msg : length (Sha1.hmac_sha1 key msg) = 20%nat.
Proof. apply length_sha1. Qed.

Lemma truncate_range mac : 0 <= truncate mac < 2 ^ 31.
Proof.
  unfold truncate. change 0x7FFFFFFF with (Z.ones 31).
  rewrite Z.land_ones by lia. apply Z.mod_pos_bound. lia.
Qed.

(** *** Bytes and bits *)

Lemma lor_shiftl_add (hi lo n : Z) :
  0 <= n -> 0 <= lo < 2 ^ n -> Z.lor (Z.shiftl hi n) lo = hi * 2 ^ n + lo.
Proof.
  intros Hn Hlo.
  assert (Z.land (Z.shiftl hi n) lo = 0) as Hland.
  { apply Z.bits_inj'. intros i Hi. rewrite Z.land_spec, Z.bits_0.
    destruct (Z.lt_ge_cases i n) as [Hlt|Hge].
    - rewrite Z.shiftl_spec_low by assumption. reflexivity.
    - assert (Z.testbit lo i = false) as ->.
      { apply Z.testbit_false; [exact Hi|].
        rewrite Z.div_small; [reflexivity|]. split; [lia|].
        apply Z.lt_le_trans with (2 ^ n); [lia|].
        apply Z.pow_le_mono_r; lia. }
      apply andb_false_r. }
  rewrite <- Z.lxor_lor by exact Hland.
  rewrite <- Z.add_nocarry_lxor by exact Hland.
  rewrite Z.shiftl_mul_pow2 by exact Hn. reflexivity.
Qed.

Lemma be32_value (b0 b1 b2 b3 : Z) :
  0 <= b1 < 256 -> 0 <= b2 < 256 -> 0 <= b3 < 256 ->
  Z.lor (Z.lor (Z.shiftl b0 24) (Z.shiftl b1 16)) (Z.lor (Z.shiftl b2 8) b3)
  = be_value [b0; b1; b2; b3].
Proof.
  intros H1 H2 H3. unfold be_value. cbn [fold_left].
  rewrite (lor_shiftl_add b2 b3 8) by (pow_consts; lia).
  rewrite (Z.shiftl_mul_pow2 b1 16) by lia.
  rewrite (lor_shiftl_add b0 (b1 * 2 ^ 16) 24) by (pow_consts; lia).
  assert (b0 * 2 ^ 24 + b1 * 2 ^ 16 = Z.shiftl (b0 * 2 ^ 8 + b1) 16) as ->.
  { rewrite Z.shiftl_mul_pow2 by lia. pow_consts. lia. }
  rewrite lor_shiftl_add by (pow_consts; lia).
  pow_consts. lia.
Qed.

Lemma be_value_be_bytes (n : nat) : forall x,
  be_value (Sha1.be_bytes n x) = x mod 256 ^ Z.of_nat n.
Proof.
  induction n as [|n IH]; intros x.
  - simpl. rewrite Z.mod_1_r. reflexivity.
  - simpl Sha1.be_bytes. unfold be_value in *. rewrite fold_left_app.
    cbn [fold_left]. rewrite IH. change 255 with (Z.ones 8).
    rewrite Z.land_ones by lia. rewrite Z.shiftr_div_pow2 by lia.
    rewrite Nat2Z.inj_succ, Z.pow_succ_r by lia.
    change (2 ^ 8) with 256.
    rewrite (Z.rem_mul_r x 256 (256 ^ Z.of_nat n)) by lia. lia.
Qed.

Lemma be_bytes_range (n : nat) : forall x, Forall is_byte (Sha1.be_bytes n x).
Proof.
  induction n as [|n IH]; intros x; simpl; [constructor|].
  apply Forall_app. split; [apply IH|]. constructor; [|constructor].
  unfold is_byte. change 255 with (Z.ones 8). rewrite Z.land_ones by lia.
  apply Z.mod_pos_bound. lia.
Qed.

Lemma sha1_range msg : Forall is_byte (Sha1.sha1 msg).
Proof.
  unfold Sha1.sha1. rewrite !Forall_app. repeat split; apply be_bytes_range.
Qed.

Lemma nth_is_byte (l : list Z) i : Forall is_byte l -> is_byte (nth i l 0).
Proof.
  intros Hl. revert i. induction Hl as [|b l Hb Hl IH]; intros [|i]; simpl;
    try (unfold is_byte; lia); auto.
Qed.

Lemma take4_drop (l : list Z) : forall o,
  (o + 4 <= length l)%nat ->
  take 4 (drop o l)
  = [nth o l 0; nth (o + 1) l 0; nth (o + 2) l 0; nth (o + 3) l 0].
Proof.
  induction l as [|a l IH]; intros [|o] Hlen; simpl in Hlen; try lia.
  - destruct l as [|b [|c [|d l]]]; simpl in Hlen; try lia. reflexivity.
  - simpl. apply IH. lia.
Qed.

(** The dynamic truncation in numbers: the four bytes at the offset given
    by the low nibble of the last byte, read big-endian, modulo 2^31. *)
Lemma truncate_bytes (mac : list Z) :
  Forall is_byte mac ->
  let offset := Z.to_nat (List.last mac 0 mod 16) in
  (offset + 4 <= length mac)%nat ->
  truncate mac = be_value (take 4 (drop offset mac)) mod 2 ^ 31.
Proof.
  intros Hmac offset Hlen. unfold truncate.
  change 0xF with (Z.ones 4). rewrite Z.land_ones by lia.
  change (2 ^ 4) with 16. fold offset.
  change 0x7FFFFFFF with (Z.ones 31). rewrite Z.land_ones by lia.
  rewrite (take4_drop mac offset Hlen), Nat.add_0_r.
  rewrite be32_value by (apply nth_is_byte, Hmac). reflexivity.
Qed.

Lemma hmac_offset_fits key msg :
  (Z.to_nat (List.last (Sha1.hmac_sha1 key msg) 0 mod 16)%Z + 4
   <= length (Sha1.hmac_sha1 key msg))%nat.
Proof.
  rewrite length_hmac_sha1.
  pose proof (Z.mod_pos_bound (List.last (Sha1.hmac_sha1 key msg) 0) 16).
  lia.
Qed.

End GeneratorFacts.

(** * The claims *)

(** Known answers of the standards the generator is built from: SHA-1 of
    ["abc"] (FIPS 180-4), HMAC-SHA1 case 2 of RFC 2202, and the base32
    text of the RFC 6238 key. *)
Example sha1_abc :
  Sha1.sha1 (bytes_of_string "abc")
  = [0xa9; 0x99; 0x3e; 0x36; 0x47; 0x06; 0x81; 0x6a; 0xba; 0x3e;
     0x25; 0x71; 0x78; 0x50; 0xc2; 0x6c; 0x9c; 0xd0; 0xd8; 0x9d].
Proof. vm_compute. reflexivity. Qed.

Example hmac_sha1_rfc2202_case2 :
  Sha1.hmac_sha1 (bytes_of_string "Jefe")
    (bytes_of_string "what do ya want for nothing?")
  = [0xef; 0xfc; 0xdf; 0x6a; 0xe5; 0xeb; 0x2f; 0xa2; 0xd2; 0x74;
     0x16; 0xd5; 0xf1; 0x84; 0xdf; 0x9c; 0x25; 0x9a; 0x7c; 0x79].
Proof. vm_compute. reflexivity. Qed.

Example b32decode_rfc6238_key :
  Generator.b32decode "GEZDGNBVGY3TQOJQGEZDGNBVGY3TQOJQ"
  = Some (bytes_of_string "12345678901234567890")
  /\ Generator.b32decode "GEZDGNBVGY3TQOJQ"
     = Some (bytes_of_string "1234567890").
Proof. split; vm_compute; reflexivity. Qed.

(** C1, as stated, fails: the 16-character secret ["GEZDGNBVGY3TQOJQ"]
    decodes to the 10-byte key ["1234567890"], not to the 20-byte key of
    the RFC 6238 vectors, so its codes at times 59 and 1111111109 are
    ["13263420"] and ["93343526"]; and a descriptor with 11 digits gets no
    code from the generator. *)
Lemma generate_secret16_counterexample :
  Generator.generate (mkDescriptor "Work" "GEZDGNBVGY3TQOJQ" 8) 59
  = Ok "13263420"
  /\ Generator.generate (mkDescriptor "Work" "GEZDGNBVGY3TQOJQ" 8) 59
     <> Ok "94287082"
  /\ Generator.generate (mkDescriptor "Work" "GEZDGNBVGY3TQOJQ" 8) 1111111109
     = Ok "93343526"
  /\ Generator.generate (mkDescriptor "Work" "GEZDGNBVGY3TQOJQ" 8) 1111111109
     <> Ok "07081804"
  /\ Generator.generate (mkDescriptor "Work" "GEZDGNBVGY3TQOJQ" 11) 59
     = Raise InvalidDigits.
Proof.
  assert (Generator.generate (mkDescriptor "Work" "GEZDGNBVGY3TQOJQ" 8) 59
          = Ok "13263420") as H1 by (vm_compute; reflexivity).
  assert (Generator.generate (mkDescriptor "Work" "GEZDGNBVGY3TQOJQ" 8) 1111111109
          = Ok "93343526") as H2 by (vm_compute; reflexivity).
  rewrite H1, H2. repeat split; discriminate.
Qed.

(** C1 (amended): for every descriptor with a valid base32 secret and
    between 1 and 10 digits, and every time [at_time], the generator
    returns the RFC 6238 code: the counter [at_time / 30] (rounded down)
    is written on 8 bytes, most significant first; its HMAC-SHA1 under the
    decoded secret has 20 bytes; the low nibble of the last of them is the
    offset of 4 bytes that, read most significant first and reduced
    modulo 2^31, give the truncated value; and the code has exactly
    [digits] decimal digits and reads back as that value modulo
    [10 ^ digits]. For the 32-character secret of the 20-byte RFC key and
    8 digits the codes at times 59 and 1111111109 are ["94287082"] and
    ["07081804"]. *)
Theorem generate_rfc6238 :
  (forall (d : OtpDescriptor) (at_time : Z) (key : list Z),
      Generator.b32decode (secret d) = Some key ->
      0 < digits d <= 10 ->
      let msg := Sha1.be_bytes 8 (at_time / 30) in
      let mac := Sha1.hmac_sha1 key msg in
      let offset := Z.to_nat (List.last mac 0 mod 16) in
      let value := Generator.truncate mac mod 10 ^ digits d in
      exists code,
        Generator.generate d at_time = Ok code
        /\ length msg = 8%nat
        /\ be_value msg = (at_time / 30) mod 2 ^ 64
        /\ length mac = 20%nat
        /\ Generator.truncate mac
           = be_value (take 4 (drop offset mac)) mod 2 ^ 31
        /\ String.length code = Z.to_nat (digits d)
        /\ all_chars Py.is_digit code = true
        /\ Py.int code = Some value)
  /\ (forall l,
        Generator.generate
          (mkDescriptor l "GEZDGNBVGY3TQOJQGEZDGNBVGY3TQOJQ" 8) 59
        = Ok "94287082")
  /\ (forall l,
        Generator.generate
          (mkDescriptor l "GEZDGNBVGY3TQOJQGEZDGNBVGY3TQOJQ" 8) 1111111109
        = Ok "07081804").
Proof.
  split; [|split; intros l; vm_compute; reflexivity].
  intros d at_time key Hkey Hd msg mac offset value.
  assert (0 <= value < 10 ^ digits d) as Hv.
  { apply Z.mod_pos_bound, Z.pow_pos_nonneg; lia. }
  destruct (format_code_numeral (digits d) value Hd Hv) as (Hlen & Hall & Hint).
  exists (Generator.format_code (digits d) value).
  unfold Generator.generate. rewrite Hkey.
  destruct (Z.leb_spec (digits d) 0); [lia|].
  destruct (Z.ltb_spec 10 (digits d)); [lia|].
  refine (conj eq_refl
            (conj _ (conj _ (conj _ (conj _ (conj Hlen (conj Hall Hint))))))).
  - apply length_be_bytes.
  - apply (be_value_be_bytes 8).
  - apply length_hmac_sha1.
  - apply truncate_bytes; [apply sha1_range | apply hmac_offset_fits].
Qed.

Lemma generate_rfc6238_witness :
  exists code,
    Generator.generate
      (mkDescriptor "Work" "GEZDGNBVGY3TQOJQGEZDGNBVGY3TQOJQ" 6) 59 = Ok code
    /\ String.length code = 6%nat.
Proof.
  destruct (proj1 generate_rfc6238
              (mkDescriptor "Work" "GEZDGNBVGY3TQOJQGEZDGNBVGY3TQOJQ" 6) 59
              (bytes_of_string "12345678901234567890"))
    as (code & Hgen & _ & _ & _ & _ & Hlen & _).
  - vm_compute. reflexivity.
  - simpl. lia.
  - exists code. split; [exact Hgen | exact Hlen].
Defined.

Section RunShape.

Variable e : env.
Variable needle : string.

Lemma run_at_first (pre : list string) (line : string) (post : list string) :
  Forall (skipped needle) pre -> parse_first_match line needle <> Ok None ->
  run_shape e needle (pre ++ line :: post)
    (search_and_generate_oauth e (pre ++ line :: post) needle).
Proof.
  intros Hpre Hline. rewrite (run_skip_prefix _ _ _ _ Hpre).
  destruct (parse_first_match line needle) as [[d|]|x] eqn:El; [|congruence|].
  - rewrite (run_hit _ _ _ _ _ El).
    destruct (Generator.generate d (clock e)) as [code|x] eqn:Eg.
    + unfold skipping, after. simpl.
      replace (map EvRead pre ++ EvRead line :: EvGenerate d
                 :: EvCopy code (copy_to_clipboard e code)
                 :: EvPrint (colored_box (copy_to_clipboard e code))
                 :: (if copy_to_clipboard e code then [] else [EvPrint code]))
        with (map EvRead (pre ++ [line]) ++ EvGenerate d :: deliver e code)
        by (rewrite map_app, <- app_assoc; reflexivity).
      eapply RunFound; eauto.
    + unfold skipping, after. simpl.
      replace (map EvRead pre ++ [EvRead line; EvGenerate d])
        with (map EvRead (pre ++ [line]) ++ [EvGenerate d])
        by (rewrite map_app, <- app_assoc; reflexivity).
      eapply RunGeneratorError; eauto.
  - rewrite (run_raise _ _ _ _ _ El). unfold skipping. simpl.
    replace (map EvRead pre ++ [EvRead line]) with (map EvRead (pre ++ [line]))
      by (rewrite map_app; reflexivity).
    eapply RunParseError; eauto.
Qed.

Lemma run_has_shape (f : list string) :
  run_shape e needle f (search_and_generate_oauth e f needle).
Proof.
  destruct (source_split f needle) as [H|(pre & line & post & -> & Hpre & Hl)].
  - rewrite (run_no_match _ _ _ H). apply RunNotFound, H.
  - apply run_at_first; assumption.
Qed.

(** The first line that is not skipped is unique. *)
Lemma first_unskipped_unique (pre1 pre2 : list string) l1 l2 post1 post2 :
  pre1 ++ l1 :: post1 = pre2 ++ l2 :: post2 ->
  Forall (skipped needle) pre1 -> Forall (skipped needle) pre2 ->
  ~ skipped needle l1 -> ~ skipped needle l2 ->
  pre1 = pre2 /\ l1 = l2 /\ post1 = post2.
Proof.
  revert pre2. induction pre1 as [|a pre1 IH]; intros [|b pre2] Heq H1 H2 N1 N2;
    simpl in Heq; injection Heq as -> Heq.
  - subst. auto.
  - inversion H2; subst. contradiction.
  - inversion H1; subst. contradiction.
  - inversion H1; inversion H2; subst.
    destruct (IH pre2 Heq) as (-> & -> & ->); auto.
Qed.

End RunShape.

Section Candidate.

Variable e : env.
Variable needle : string.

(** The run on a source whose first line that is not skipped yields [d]. *)
Lemma run_candidate (pre : list string) line (post : list string) d :
  Forall (fun l => parse_first_match l needle = Ok None) pre ->
  parse_first_match line needle = Ok (Some d) ->
  search_and_generate_oauth e (pre ++ line :: post) needle =
  mkOutcome
    (map EvRead (pre ++ [line]) ++ EvGenerate d ::
       match Generator.generate d (clock e) with
       | Ok code => deliver e code
       | Raise _ => []
       end)
    (match Generator.generate d (clock e) with
     | Ok _ => Ok true
     | Raise x => Raise x
     end)
    post.
Proof.
  intros Hpre Hline.
  rewrite (run_skip_prefix _ _ _ _ Hpre), (run_hit _ _ _ _ _ Hline).
  unfold skipping, after. rewrite map_app, <- app_assoc. simpl.
  destruct (Generator.generate d (clock e)); reflexivity.
Qed.

Lemma run_candidate_raises (pre : list string) line (post : list string) x :
  Forall (fun l => parse_first_match l needle = Ok None) pre ->
  parse_first_match line needle = Raise x ->
  search_and_generate_oauth e (pre ++ line :: post) needle =
  mkOutcome (map EvRead (pre ++ [line])) (Raise x) post.
Proof.
  intros Hpre Hline.
  rewrite (run_skip_prefix _ _ _ _ Hpre), (run_raise _ _ _ _ _ Hline).
  unfold skipping. rewrite map_app. reflexivity.
Qed.

Lemma lines_read_deliver code : lines_read (deliver e code) = [].
Proof. unfold deliver. destruct (copy_to_clipboard e code); reflexivity. Qed.

Lemma generated_deliver code : generated (deliver e code) = [].
Proof. unfold deliver. destruct (copy_to_clipboard e code); reflexivity. Qed.

Lemma skipped_filters (ls : list string) :
  Forall (fun l => passes_filters l needle = false) ls ->
  Forall (fun l => parse_first_match l needle = Ok None) ls.
Proof.
  intros H. eapply Forall_impl; [exact H|].
  intros l Hl. apply parse_first_match_none, Hl.
Qed.

End Candidate.

(** C2: when the lines [pre] do not pass the filters and [line] is the
    first that does and yields the descriptor [d], the run reads
    [pre] and [line] and nothing else ([post] stays unread), calls the
    generator once, on [d], and neither its events nor its result depend
    on the lines after [line]: a later matching line is neither read nor
    given to the generator. *)
Theorem first_match_wins (e : env) (needle : string)
    (pre : list string) (line : string) (post : list string)
    (d : OtpDescriptor) :
  Forall (fun l => passes_filters l needle = false) pre ->
  parse_first_match line needle = Ok (Some d) ->
  let o := search_and_generate_oauth e (pre ++ line :: post) needle in
  passes_filters line needle = true
  /\ lines_read (trace o) = pre ++ [line]
  /\ unread o = post
  /\ generated (trace o) = [d]
  /\ forall post',
       let o' := search_and_generate_oauth e (pre ++ line :: post') needle in
       trace o' = trace o /\ returned o' = returned o.
Proof.
  intros Hpre Hline o. apply skipped_filters in Hpre.
  subst o. rewrite (run_candidate e needle pre line post d Hpre Hline). simpl.
  split.
  { destruct (passes_filters line needle) eqn:E; [reflexivity|].
    apply parse_first_match_none in E. congruence. }
  rewrite lines_read_reads, generated_reads. simpl.
  refine (conj _ (conj eq_refl (conj _ _))).
  - destruct (Generator.generate d (clock e));
      [rewrite lines_read_deliver|]; rewrite app_nil_r; reflexivity.
  - destruct (Generator.generate d (clock e));
      [rewrite generated_deliver|]; reflexivity.
  - intros post'.
    rewrite (run_candidate e needle pre line post' d Hpre Hline).
    split; reflexivity.
Qed.

Lemma first_match_wins_witness :
  let o :=
    search_and_generate_oauth (no_clipboard 59)
      ["# export";
       "otpauth://totp/Work:alice?secret=GEZDGNBVGY3TQOJQGEZDGNBVGY3TQOJQ&digits=8";
       "otpauth://totp/Work:bob?secret=MZXW6YTBOI&digits=6"] "work" in
  generated (trace o)
  = [mkDescriptor "Work:alice" "GEZDGNBVGY3TQOJQGEZDGNBVGY3TQOJQ" 8]
  /\ unread o = ["otpauth://totp/Work:bob?secret=MZXW6YTBOI&digits=6"].
Proof.
  destruct (first_match_wins (no_clipboard 59) "work" ["# export"]
              "otpauth://totp/Work:alice?secret=GEZDGNBVGY3TQOJQGEZDGNBVGY3TQOJQ&digits=8"
              ["otpauth://totp/Work:bob?secret=MZXW6YTBOI&digits=6"]
              (mkDescriptor "Work:alice" "GEZDGNBVGY3TQOJQGEZDGNBVGY3TQOJQ" 8))
    as (_ & _ & Hun & Hgen & _).
  - repeat constructor.
  - vm_compute. reflexivity.
  - split; [exact Hgen | exact Hun].
Defined.

Section Projections.

Variable e : env.

Lemma copies_deliver code :
  copies (deliver e code) = [(code, copy_to_clipboard e code)].
Proof. unfold deliver. destruct (copy_to_clipboard e code); reflexivity. Qed.

Lemma printed_deliver code :
  printed (deliver e code) =
  colored_box (copy_to_clipboard e code)
    :: (if copy_to_clipboard e code then [] else [code]).
Proof. unfold deliver. destruct (copy_to_clipboard e code); reflexivity. Qed.

Lemma lines_read_only (ls : list string) : lines_read (map EvRead ls) = ls.
Proof.
  rewrite <- (app_nil_r (map EvRead ls)), lines_read_reads. apply app_nil_r.
Qed.

Lemma generated_only (ls : list string) : generated (map EvRead ls) = [].
Proof. rewrite <- (app_nil_r (map EvRead ls)), generated_reads. reflexivity. Qed.

Lemma copies_only (ls : list string) : copies (map EvRead ls) = [].
Proof. rewrite <- (app_nil_r (map EvRead ls)), copies_reads. reflexivity. Qed.

Lemma printed_only (ls : list string) : printed (map EvRead ls) = [].
Proof. rewrite <- (app_nil_r (map EvRead ls)), printed_reads. reflexivity. Qed.

End Projections.

(** C3, as stated, fails: a line that passes the label filter and has a
    secret key, but with the empty value, is no candidate; its unparsable
    digits are never read, the line is skipped and the run goes on to the
    later matching line. *)
Lemma empty_secret_bad_digits_counterexample :
  Re.search "otpauth://totp/Work?secret=&digits=abc"
  = Some ("Work", "secret=&digits=abc")
  /\ parse_query "secret=&digits=abc" !! "secret" = Some ""
  /\ parse_query "secret=&digits=abc" !! "digits" = Some "abc"
  /\ Py.int "abc" = None
  /\ parse_first_match "otpauth://totp/Work?secret=&digits=abc" "work"
     = Ok None
  /\ returned
       (search_and_generate_oauth (no_clipboard 59)
          ["otpauth://totp/Work?secret=&digits=abc";
           "otpauth://totp/Work2?secret=GEZDGNBVGY3TQOJQ&digits=6"] "work")
     = Ok true
  /\ generated
       (trace
          (search_and_generate_oauth (no_clipboard 59)
             ["otpauth://totp/Work?secret=&digits=abc";
              "otpauth://totp/Work2?secret=GEZDGNBVGY3TQOJQ&digits=6"] "work"))
     = [mkDescriptor "Work2" "GEZDGNBVGY3TQOJQ" 6].
Proof. repeat split; vm_compute; reflexivity. Qed.

(** C3 (amended): take the first line that passes the label filter and
    has a secret key. If the value of the key is empty, the line is
    skipped, whatever its digits are, and the run goes on with the lines
    after it. If the value is not empty, the line is the candidate:
    without a digits key the descriptor has 6 digits; with a digits value
    that [int] refuses the run ends with that [ValueError], and with a
    secret that is not base32 it ends with an exception too
    ([InvalidSecret] when the digits are between 1 and 10); in both cases
    no later line is read and nothing is copied or printed. *)
Theorem candidate_line_malformed (e : env) (needle : string)
    (pre : list string) (line : string) (post : list string)
    (lab q s : string) :
  Forall (fun l => passes_filters l needle = false) pre ->
  Re.search line = Some (lab, q) ->
  Py.contains (Py.lower needle) (Py.lower lab) = true ->
  parse_query q !! "secret" = Some s ->
  let o := search_and_generate_oauth e (pre ++ line :: post) needle in
  (s = "" ->
     parse_first_match line needle = Ok None
     /\ o = skipping (pre ++ [line]) (search_and_generate_oauth e post needle))
  /\ (s <> "" ->
      (parse_query q !! "digits" = None ->
         parse_first_match line needle = Ok (Some (mkDescriptor lab s 6))
         /\ generated (trace o) = [mkDescriptor lab s 6])
      /\ (forall v, parse_query q !! "digits" = Some v -> Py.int v = None ->
            returned o = Raise (ValueError v)
            /\ lines_read (trace o) = pre ++ [line] /\ unread o = post
            /\ generated (trace o) = []
            /\ copies (trace o) = [] /\ printed (trace o) = [])
      /\ (Generator.b32decode s = None ->
            (exists x, returned o = Raise x)
            /\ (forall d, parse_first_match line needle = Ok (Some d) ->
                  0 < digits d <= 10 -> returned o = Raise InvalidSecret)
            /\ lines_read (trace o) = pre ++ [line] /\ unread o = post
            /\ copies (trace o) = [] /\ printed (trace o) = [])).
Proof.
  intros Hpre Hre Hlab Hsec o. apply skipped_filters in Hpre.
  pose proof (parse_first_match_found line needle lab q Hre) as Hp.
  rewrite Hlab, Hsec in Hp. simpl in Hp.
  split.
  { intros ->. split; [exact Hp|]. subst o.
    replace (pre ++ line :: post) with ((pre ++ [line]) ++ post)
      by (rewrite <- app_assoc; reflexivity).
    apply run_skip_prefix. apply Forall_app. split; [exact Hpre|].
    constructor; [exact Hp | constructor]. }
  intros Hne.
  destruct s as [|c s]; [congruence|].
  split; [|split].
  - intros Hdig. rewrite Hdig in Hp. split; [exact Hp|].
    subst o. rewrite (run_candidate e needle pre line post _ Hpre Hp). simpl.
    rewrite generated_reads. simpl.
    destruct (Generator.generate _ _); [rewrite generated_deliver|]; reflexivity.
  - intros v Hdig Hint. rewrite Hdig, Hint in Hp.
    subst o. rewrite (run_candidate_raises e needle pre line post _ Hpre Hp).
    simpl. rewrite lines_read_only, generated_only, copies_only, printed_only.
    repeat split; reflexivity.
  - intros Hb32.
    destruct (parse_first_match line needle) as [[d|]|x] eqn:El.
    + assert (secret d = String c s) as Hsd.
      { destruct (parse_query q !! "digits") as [v|];
          [destruct (Py.int v)|]; inversion Hp; reflexivity. }
      assert (exists x, Generator.generate d (clock e) = Raise x
                /\ (0 < digits d <= 10 -> x = InvalidSecret)) as (x & Hg & Hx).
      { unfold Generator.generate. rewrite Hsd, Hb32.
        destruct (_ || _) eqn:Ed.
        - exists InvalidDigits. split; [reflexivity|].
          intros Hr. apply orb_true_iff in Ed as [Ed|Ed]; lia.
        - exists InvalidSecret. auto. }
      subst o. rewrite (run_candidate e needle pre line post d Hpre El), Hg.
      simpl. rewrite lines_read_reads, copies_reads, printed_reads. simpl.
      rewrite app_nil_r.
      refine (conj _ (conj _ (conj eq_refl (conj eq_refl (conj eq_refl eq_refl))))).
      * exists x. reflexivity.
      * intros d' [= <-] Hr. rewrite (Hx Hr). reflexivity.
    + destruct (parse_query q !! "digits") as [v|];
        [destruct (Py.int v)|]; discriminate.
    + subst o. rewrite (run_candidate_raises e needle pre line post x Hpre El).
      simpl. rewrite lines_read_only, copies_only, printed_only.
      refine (conj _ (conj _ (conj eq_refl (conj eq_refl (conj eq_refl eq_refl))))).
      * exists x. reflexivity.
      * intros d' [=].
Qed.

Lemma candidate_line_malformed_witness :
  returned
    (search_and_generate_oauth (no_clipboard 59)
       ["otpauth://totp/Work?secret=GEZDGNBVGY3TQOJQ&digits=abc";
        "otpauth://totp/Work?secret=GEZDGNBVGY3TQOJQ&digits=6"] "work")
  = Raise (ValueError "abc")
  /\ returned
       (search_and_generate_oauth (no_clipboard 59)
          ["# export"; "otpauth://totp/Work?secret=GEZDGNBV1&digits=6";
           "otpauth://totp/Work?secret=GEZDGNBVGY3TQOJQ&digits=6"] "work")
     = Raise InvalidSecret
  /\ unread
       (search_and_generate_oauth (no_clipboard 59)
          ["# export"; "otpauth://totp/Work?secret=GEZDGNBV1&digits=6";
           "otpauth://totp/Work?secret=GEZDGNBVGY3TQOJQ&digits=6"] "work")
     = ["otpauth://totp/Work?secret=GEZDGNBVGY3TQOJQ&digits=6"]
  /\ search_and_generate_oauth (no_clipboard 59)
       ["otpauth://totp/Work?secret=&digits=abc";
        "otpauth://totp/Work?secret=GEZDGNBVGY3TQOJQ&digits=6"] "work"
     = skipping ["otpauth://totp/Work?secret=&digits=abc"]
         (search_and_generate_oauth (no_clipboard 59)
            ["otpauth://totp/Work?secret=GEZDGNBVGY3TQOJQ&digits=6"] "work").
Proof.
  refine (conj _ (conj _ (conj _ _))).
  - destruct (candidate_line_malformed (no_clipboard 59) "work" []
                "otpauth://totp/Work?secret=GEZDGNBVGY3TQOJQ&digits=abc"
                ["otpauth://totp/Work?secret=GEZDGNBVGY3TQOJQ&digits=6"]
                "Work" "secret=GEZDGNBVGY3TQOJQ&digits=abc" "GEZDGNBVGY3TQOJQ")
      as (_ & H).
    + constructor.
    + vm_compute. reflexivity.
    + vm_compute. reflexivity.
    + vm_compute. reflexivity.
    + destruct (H ltac:(discriminate)) as (_ & Hv & _).
      destruct (Hv "abc") as (Hr & _).
      * vm_compute. reflexivity.
      * vm_compute. reflexivity.
      * exact Hr.
  - destruct (candidate_line_malformed (no_clipboard 59) "work" ["# export"]
                "otpauth://totp/Work?secret=GEZDGNBV1&digits=6"
                ["otpauth://totp/Work?secret=GEZDGNBVGY3TQOJQ&digits=6"]
                "Work" "secret=GEZDGNBV1&digits=6" "GEZDGNBV1")
      as (_ & H).
    + repeat constructor.
    + vm_compute. reflexivity.
    + vm_compute. reflexivity.
    + vm_compute. reflexivity.
    + destruct (H ltac:(discriminate)) as (_ & _ & Hb).
      destruct Hb as (_ & Hr & _).
      * vm_compute. reflexivity.
      * apply (Hr (mkDescriptor "Work" "GEZDGNBV1" 6)).
        -- vm_compute. reflexivity.
        -- simpl. lia.
  - destruct (candidate_line_malformed (no_clipboard 59) "work" ["# export"]
                "otpauth://totp/Work?secret=GEZDGNBV1&digits=6"
                ["otpauth://totp/Work?secret=GEZDGNBVGY3TQOJQ&digits=6"]
                "Work" "secret=GEZDGNBV1&digits=6" "GEZDGNBV1")
      as (_ & H).
    + repeat constructor.
    + vm_compute. reflexivity.
    + vm_compute. reflexivity.
    + vm_compute. reflexivity.
    + destruct (H ltac:(discriminate)) as (_ & _ & Hb).
      destruct Hb as (_ & _ & _ & Hu & _).
      * vm_compute. reflexivity.
      * exact Hu.
  - destruct (candidate_line_malformed (no_clipboard 59) "work" []
                "otpauth://totp/Work?secret=&digits=abc"
                ["otpauth://totp/Work?secret=GEZDGNBVGY3TQOJQ&digits=6"]
                "Work" "secret=&digits=abc" "")
      as (H & _).
    + constructor.
    + vm_compute. reflexivity.
    + vm_compute. reflexivity.
    + vm_compute. reflexivity.
    + destruct (H eq_refl) as (_ & Hrun). exact Hrun.
Defined.

(** C6: a line whose label contains the needle but whose query string
    has no secret key gives [None] without an exception, and the run goes
    on with the lines after it; when no line of the source passes the
    filters (the empty source included) the run reads every line, never
    calls the generator or the clipboard, prints the red box and returns
    [False] as a value, not as an exception. *)
Theorem no_secret_skipped_and_not_found :
  (forall line needle lab q,
      Re.search line = Some (lab, q) ->
      Py.contains (Py.lower needle) (Py.lower lab) = true ->
      parse_query q !! "secret" = None ->
      parse_first_match line needle = Ok None
      /\ forall e rest,
           search_and_generate_oauth e (line :: rest) needle
           = after (EvRead line) (search_and_generate_oauth e rest needle))
  /\ (forall e f needle,
        Forall (fun l => passes_filters l needle = false) f ->
        let o := search_and_generate_oauth e f needle in
        returned o = Ok false
        /\ lines_read (trace o) = f /\ unread o = []
        /\ generated (trace o) = [] /\ copies (trace o) = []
        /\ printed (trace o) = [colored_box false])
  /\ (forall e needle,
        returned (search_and_generate_oauth e [] needle) = Ok false).
Proof.
  split; [|split].
  - intros line needle lab q Hre Hlab Hsec.
    assert (parse_first_match line needle = Ok None) as Hp.
    { rewrite (parse_first_match_found _ _ _ _ Hre), Hlab, Hsec. reflexivity. }
    split; [exact Hp|]. intros e rest. apply run_skip, Hp.
  - intros e f needle Hf o. apply skipped_filters in Hf.
    subst o. rewrite (run_no_match e f needle Hf). simpl.
    rewrite lines_read_reads, generated_reads, copies_reads, printed_reads.
    simpl. rewrite app_nil_r. repeat split; reflexivity.
  - reflexivity.
Qed.

Lemma no_secret_skipped_and_not_found_witness :
  parse_first_match "otpauth://totp/Work?issuer=ACME&digits=abc" "work"
  = Ok None
  /\ returned
       (search_and_generate_oauth (no_clipboard 59)
          ["otpauth://totp/Work?issuer=ACME"; "nothing here"] "work")
     = Ok false.
Proof.
  split.
  - apply (proj1 no_secret_skipped_and_not_found
             "otpauth://totp/Work?issuer=ACME&digits=abc" "work"
             "Work" "issuer=ACME&digits=abc");
      vm_compute; reflexivity.
  - apply (proj1 (proj2 no_secret_skipped_and_not_found)).
    repeat constructor.
Defined.

(** C9: a line whose secret key has the empty value gives [None] just as a
    line without the key does, whatever the needle and the digits are, and
    the run goes on with the lines after it. *)
Theorem empty_secret_is_no_secret (line needle lab q : string) :
  Re.search line = Some (lab, q) ->
  parse_query q !! "secret" = Some "" ->
  parse_first_match line needle = Ok None
  /\ passes_filters line needle = false
  /\ (forall line' lab' q',
        Re.search line' = Some (lab', q') ->
        parse_query q' !! "secret" = None ->
        parse_first_match line' needle = parse_first_match line needle)
  /\ forall e rest,
       search_and_generate_oauth e (line :: rest) needle
       = after (EvRead line) (search_and_generate_oauth e rest needle).
Proof.
  intros Hre Hsec.
  assert (parse_first_match line needle = Ok None) as Hp.
  { rewrite (parse_first_match_found _ _ _ _ Hre), Hsec.
    destruct (negb _); reflexivity. }
  split; [exact Hp|]. split; [apply parse_first_match_none, Hp|]. split.
  - intros line' lab' q' Hre' Hsec'.
    rewrite (parse_first_match_found _ _ _ _ Hre'), Hsec', Hp.
    destruct (negb _); reflexivity.
  - intros e rest. apply run_skip, Hp.
Qed.

Lemma empty_secret_is_no_secret_witness :
  search_and_generate_oauth (no_clipboard 59)
    ["otpauth://totp/Work?secret=&digits=6";
     "otpauth://totp/Work?secret=GEZDGNBVGY3TQOJQ"] "work"
  = after (EvRead "otpauth://totp/Work?secret=&digits=6")
      (search_and_generate_oauth (no_clipboard 59)
         ["otpauth://totp/Work?secret=GEZDGNBVGY3TQOJQ"] "work").
Proof.
  apply (empty_secret_is_no_secret "otpauth://totp/Work?secret=&digits=6"
           "work" "Work" "secret=&digits=6");
    vm_compute; reflexivity.
Defined.

(** C10: whenever the run returns a boolean, it is [True] exactly when
    some line of the source yields a descriptor; the result, the lines
    read and the generator calls are the same in two environments that
    differ only in their clipboard tools; and after a failed copy the run
    still returns [True] and its last [print] is the code, while after a
    successful copy only the green box is printed. *)
Theorem result_independent_of_clipboard :
  (forall e f needle b,
      returned (search_and_generate_oauth e f needle) = Ok b ->
      (b = true <->
       Exists (fun l => exists d, parse_first_match l needle = Ok (Some d)) f))
  /\ (forall e e' f needle,
        clock e = clock e' ->
        let o := search_and_generate_oauth e f needle in
        let o' := search_and_generate_oauth e' f needle in
        returned o = returned o' /\ unread o = unread o'
        /\ lines_read (trace o) = lines_read (trace o')
        /\ generated (trace o) = generated (trace o'))
  /\ (forall e f needle code copied,
        let o := search_and_generate_oauth e f needle in
        In (code, copied) (copies (trace o)) ->
        copied = copy_to_clipboard e code
        /\ returned o = Ok true
        /\ printed (trace o)
           = colored_box copied :: (if copied then [] else [code])).
Proof.
  split; [|split].
  - intros e f needle b Hb.
    destruct (run_has_shape e needle f) as [Hf|pre line post x Hs Hpre Hl
                                           |pre line post d x Hs Hpre Hl Hg
                                           |pre line post d code Hs Hpre Hl Hg];
      rewrite <- ?H in Hb; simpl in Hb; try discriminate.
    + injection Hb as <-. split; [discriminate|].
      intros Hex. apply Exists_exists in Hex as (l & Hin & d & Hd).
      rewrite Forall_forall in Hf. specialize (Hf l Hin). congruence.
    + injection Hb as <-. split; [|reflexivity]. intros _.
      subst f. apply Exists_app. right. constructor. exists d. exact Hl.
  - intros e e' f needle Hclock o o'. subst o o'.
    destruct (source_split f needle) as [Hf|(pre & line & post & -> & Hpre & Hl)].
    + rewrite !(run_no_match _ f needle Hf). repeat split; reflexivity.
    + destruct (parse_first_match line needle) as [[d|]|x] eqn:El; [|congruence|].
      * rewrite !(run_candidate _ needle pre line post d Hpre El), <- Hclock.
        simpl. rewrite !lines_read_reads, !generated_reads. simpl.
        destruct (Generator.generate d (clock e));
          rewrite ?lines_read_deliver, ?generated_deliver; repeat split; reflexivity.
      * rewrite !(run_candidate_raises _ needle pre line post x Hpre El).
        repeat split; reflexivity.
  - intros e f needle code copied o Hin. subst o.
    destruct (source_split f needle) as [Hf|(pre & line & post & -> & Hpre & Hl)].
    + rewrite (run_no_match _ f needle Hf) in Hin. simpl in Hin.
      rewrite copies_reads in Hin. destruct Hin.
    + destruct (parse_first_match line needle) as [[d|]|x] eqn:El; [|congruence|].
      * rewrite (run_candidate _ needle pre line post d Hpre El) in Hin |- *.
        simpl in *. rewrite copies_reads in Hin. rewrite printed_reads.
        simpl in *. destruct (Generator.generate d (clock e)) as [c|]; [|destruct Hin].
        rewrite copies_deliver in Hin. rewrite printed_deliver.
        destruct Hin as [[= <- <-]|[]]. repeat split; reflexivity.
      * rewrite (run_candidate_raises _ needle pre line post x Hpre El) in Hin.
        simpl in Hin. rewrite copies_only in Hin. destruct Hin.
Qed.

Lemma result_independent_of_clipboard_witness :
  returned
    (search_and_generate_oauth (no_clipboard 59)
       ["otpauth://totp/Work?secret=GEZDGNBVGY3TQOJQGEZDGNBVGY3TQOJQ&digits=8"]
       "work") = Ok true
  /\ printed
       (trace
          (search_and_generate_oauth (no_clipboard 59)
             ["otpauth://totp/Work?secret=GEZDGNBVGY3TQOJQGEZDGNBVGY3TQOJQ&digits=8"]
             "work"))
     = [colored_box false; "94287082"].
Proof.
  destruct (proj2 (proj2 result_independent_of_clipboard) (no_clipboard 59)
              ["otpauth://totp/Work?secret=GEZDGNBVGY3TQOJQGEZDGNBVGY3TQOJQ&digits=8"]
              "work" "94287082" false) as (_ & Hr & Hp).
  - vm_compute. left. reflexivity.
  - split; [exact Hr | exact Hp].
Defined.





(** C8, as stated, fails: the class of the label is [[^?]], which admits
    white space, so this line yields a descriptor whose label has a space. *)
Lemma label_with_space_counterexample :
  Re.search "otpauth://totp/My Label?secret=GEZDGNBVGY3TQOJQ"
  = Some ("My Label", "secret=GEZDGNBVGY3TQOJQ")
  /\ parse_first_match "otpauth://totp/My Label?secret=GEZDGNBVGY3TQOJQ" "label"
     = Ok (Some (mkDescriptor "My Label" "GEZDGNBVGY3TQOJQ" 6)).
Proof. split; vm_compute; reflexivity. Qed.

(** C8 (amended): a line matches only if it contains the marker
    [otpauth://totp/] (in any letter case) followed by a label of one or
    more characters none of which is ['?'] (white space is allowed in the
    label), then ['?'], then a query string of one or more characters that
    are not white space; every line that contains such a text matches;
    the descriptor's label is that label; and when the marker, such a label
    and such a query string make up the line, they are the groups. *)
Theorem match_shape :
  (forall line lab q,
      Re.search line = Some (lab, q) ->
      exists pre m post,
        line = pre +:+ m +:+ lab +:+ String "?" (q +:+ post)
        /\ Py.lower m = Re.marker
        /\ lab <> "" /\ all_chars Re.not_question lab = true
        /\ q <> "" /\ all_chars Re.not_space q = true)
  /\ (forall line needle d,
        parse_first_match line needle = Ok (Some d) ->
        exists pre m q post,
          line = pre +:+ m +:+ label d +:+ String "?" (q +:+ post)
          /\ Py.lower m = Re.marker
          /\ label d <> "" /\ all_chars Re.not_question (label d) = true
          /\ q <> "" /\ all_chars Re.not_space q = true)
  /\ (forall pre m lab q post,
        Py.lower m = Re.marker ->
        lab <> "" -> all_chars Re.not_question lab = true ->
        q <> "" -> all_chars Re.not_space q = true ->
        Re.search (pre +:+ m +:+ lab +:+ String "?" (q +:+ post)) <> None)
  /\ (forall m lab q,
        Py.lower m = Re.marker ->
        lab <> "" -> all_chars Re.not_question lab = true ->
        q <> "" -> all_chars Re.not_space q = true ->
        Re.search (m +:+ lab +:+ String "?" q) = Some (lab, q)).
Proof.
  split; [|split; [|split]].
  - apply search_shape.
  - intros line needle d Hd.
    apply parse_first_match_some in Hd as (q & Hre & _).
    apply search_shape in Hre as (pre & m & post & H).
    exists pre, m, q, post. exact H.
  - intros pre m lab q post Hm Hl1 Hl2 Hq1 Hq2.
    apply search_complete.
    rewrite (match_here_groups m lab q post Hm Hl1 Hl2 Hq1 Hq2). discriminate.
  - intros m lab q Hm Hl1 Hl2 Hq1 Hq2.
    apply search_here, match_here_to_end; assumption.
Qed.

Lemma match_shape_witness :
  Re.search "OTPAUTH://TOTP/My Label?secret=GEZDGNBVGY3TQOJQ"
  = Some ("My Label", "secret=GEZDGNBVGY3TQOJQ").
Proof.
  apply (proj2 (proj2 (proj2 match_shape)) "OTPAUTH://TOTP/" "My Label"
           "secret=GEZDGNBVGY3TQOJQ").
  - reflexivity.
  - discriminate.
  - reflexivity.
  - discriminate.
  - reflexivity.
Defined.

Section CaseFolding.

Import Re.

Lemma startswith_spec (p s : string) :
  Py.startswith p s = true <-> exists b, s = p +:+ b.
Proof.
  revert s. induction p as [|a p IH]; intros s; simpl.
  - split; [intros _; exists s; reflexivity | reflexivity].
  - destruct s as [|c s].
    + split; [discriminate | intros [b Hb]; discriminate].
    + rewrite andb_true_iff, IH, Ascii.eqb_eq. split.
      * intros [-> [b ->]]. exists b. reflexivity.
      * intros [b Hb]. rewrite sapp_cons in Hb. injection Hb as -> ->.
        split; [reflexivity | exists b; reflexivity].
Qed.

(** [needle in hay] is plain containment: [hay] is some text, then
    [needle], then some text. *)
Lemma contains_spec (needle hay : string) :
  Py.contains needle hay = true <-> exists a b, hay = a +:+ needle +:+ b.
Proof.
  induction hay as [|c hay IH].
  - simpl. rewrite orb_false_r, startswith_spec. split.
    + intros [b Hb]. exists "", b. exact Hb.
    + intros (a & b & H). destruct a as [|x a]; [|discriminate].
      exists b. exact H.
  - change (Py.contains needle (String c hay))
      with (Py.startswith needle (String c hay) || Py.contains needle hay).
    rewrite orb_true_iff, startswith_spec, IH. split.
    + intros [[b Hb]|(a & b & ->)].
      * exists "", b. exact Hb.
      * exists (String c a), b. reflexivity.
    + intros (a & b & H). destruct a as [|x a].
      * left. exists b. exact H.
      * right. rewrite sapp_cons in H. injection H as -> ->.
        exists a, b. reflexivity.
Qed.

Lemma length_lower (s : string) : String.length (Py.lower s) = String.length s.
Proof. induction s as [|c s IH]; simpl; [|rewrite IH]; reflexivity. Qed.

(** The literal sees its text only through [lower]. *)
Lemma literal_ignorecase_case (pat m m' rest : string) :
  Py.lower m = Py.lower m' ->
  (String.length m <= String.length pat)%nat ->
  literal_ignorecase pat (m +:+ rest) = literal_ignorecase pat (m' +:+ rest).
Proof.
  revert m m'. induction pat as [|p pat IH]; intros m m' Hlow Hlen.
  - destruct m; [|simpl in Hlen; lia]. destruct m'; [reflexivity|discriminate].
  - destruct m as [|c m], m' as [|c' m']; try discriminate; [reflexivity|].
    simpl in Hlow. injection Hlow as Hc Hm. rewrite !sapp_cons. simpl.
    rewrite Hc. destruct (Ascii.eqb _ _); [|reflexivity].
    apply IH; [exact Hm | simpl in Hlen; lia].
Qed.

Lemma match_here_case (m m' rest : string) :
  Py.lower m = Py.lower m' ->
  (String.length m <= String.length marker)%nat ->
  match_here (m +:+ rest) = match_here (m' +:+ rest).
Proof.
  intros Hlow Hlen. unfold match_here.
  rewrite (literal_ignorecase_case marker m m' rest Hlow Hlen). reflexivity.
Qed.

(** A text no longer than the marker at the head of the line may change
    case without changing the match: no group starts inside it. *)
Lemma search_case (m : string) : forall m' rest,
  Py.lower m = Py.lower m' ->
  (String.length m <= String.length marker)%nat ->
  search (m +:+ rest) = search (m' +:+ rest).
Proof.
  induction m as [|c m IH]; intros m' rest Hlow Hlen.
  - destruct m'; [reflexivity|discriminate].
  - destruct m' as [|c' m']; [discriminate|].
    rewrite (search_unfold (String c m +:+ rest)),
      (search_unfold (String c' m' +:+ rest)).
    rewrite (match_here_case _ _ rest Hlow Hlen).
    destruct (match_here _); [reflexivity|].
    rewrite !sapp_cons. simpl in Hlow. injection Hlow as _ Hm.
    apply IH; [exact Hm | simpl in Hlen |- *; lia].
Qed.

Lemma add_param_key_case (params : gmap string string) (k k' v : string) :
  Py.lower k = Py.lower k' ->
  all_chars (is_not "=") k = true -> all_chars (is_not "=") k' = true ->
  add_param params (k +:+ String "=" v) = add_param params (k' +:+ String "=" v)
  /\ add_param params (k +:+ String "=" v) !! Py.lower k = Some v.
Proof.
  intros Hlow Hk Hk'. unfold add_param.
  rewrite (split_once_app "=" k v Hk), (split_once_app "=" k' v Hk'), Hlow.
  split; [reflexivity | apply lookup_insert_eq].
Qed.

End CaseFolding.

Section MarkerAnywhere.

Import Re.

Lemma lower_app (a b : string) : Py.lower (a +:+ b) = Py.lower a +:+ Py.lower b.
Proof.
  induction a as [|c a IH]; [reflexivity|].
  rewrite sapp_cons. simpl. rewrite IH. reflexivity.
Qed.

Lemma get_app (s u : string) : forall n,
  String.get n (s +:+ u)
  = if (n <? String.length s)%nat then String.get n s
    else String.get (n - String.length s) u.
Proof.
  induction s as [|c s IH]; intros n.
  - rewrite sapp_nil_l. simpl. rewrite Nat.sub_0_r. reflexivity.
  - rewrite sapp_cons. destruct n as [|n]; [reflexivity|].
    simpl String.get. rewrite IH. reflexivity.
Qed.

Lemma get_lower (s : string) : forall n,
  String.get n (Py.lower s) = option_map Py.lower_char (String.get n s).
Proof.
  induction s as [|c s IH]; intros [|n]; simpl; auto.
Qed.

Lemma get_all_chars cls (s : string) : forall n c,
  all_chars cls s = true -> String.get n s = Some c -> cls c = true.
Proof.
  induction s as [|a s IH]; intros [|n] c Hs; simpl; try discriminate;
    simpl in Hs; apply andb_true_iff in Hs as [Ha Hs].
  - intros [= <-]. exact Ha.
  - apply IH, Hs.
Qed.

(** A text that the literal accepts carries, at each place, a character
    that lowers to the lowered character of the literal. *)
Lemma literal_ignorecase_get (pat : string) : forall s r n p,
  literal_ignorecase pat s = Some r -> String.get n pat = Some p ->
  exists c, String.get n s = Some c /\ Py.lower_char c = Py.lower_char p.
Proof.
  induction pat as [|a pat IH]; intros s r n p H Hn; [discriminate|].
  destruct s as [|c s]; [discriminate|]. simpl in H.
  destruct (Ascii.eqb (Py.lower_char c) (Py.lower_char a)) eqn:E;
    [|discriminate].
  destruct n as [|n].
  - simpl in Hn. injection Hn as <-. exists c.
    apply Ascii.eqb_eq in E. auto.
  - simpl in Hn. simpl. apply (IH s r n p H Hn).
Qed.

Lemma lower_char_slash (c : ascii) : Py.lower_char c = "/"%char -> c = "/"%char.
Proof. destruct c as [[] [] [] [] [] [] [] []]; vm_compute; congruence. Qed.

Lemma marker_slash_places (j : nat) :
  String.get j marker = Some "/"%char -> (8 <= j)%nat.
Proof.
  do 8 (destruct j as [|j]; [discriminate|]). intros _. lia.
Qed.

(** No match starts inside a text without ['/'] that stands before a
    marker: the first ['/'] of the pattern would fall on a character that
    is none. *)
Lemma no_match_before_marker (t m rest : string) :
  t <> "" -> all_chars (is_not "/") t = true -> Py.lower m = marker ->
  match_here (t +:+ m +:+ rest) = None.
Proof.
  intros Hne Ht Hm. unfold match_here.
  destruct (literal_ignorecase marker (t +:+ m +:+ rest)) as [r|] eqn:El;
    [|reflexivity].
  exfalso.
  destruct (literal_ignorecase_get marker _ r 8 "/" El eq_refl)
    as (c & Hget & Hc).
  apply lower_char_slash in Hc. subst c.
  rewrite get_app in Hget.
  destruct (Nat.ltb_spec 8 (String.length t)) as [Hlt|Hge].
  - pose proof (get_all_chars _ _ _ _ Ht Hget) as Hs. discriminate Hs.
  - rewrite get_app in Hget.
    assert (String.length m = 15%nat) as Hlen.
    { rewrite <- length_lower, Hm. reflexivity. }
    assert (0 < String.length t)%nat as Hpos.
    { destruct t; [congruence | simpl; lia]. }
    destruct (Nat.ltb_spec (8 - String.length t) (String.length m)); [|lia].
    assert (String.get (8 - String.length t) marker = Some "/"%char) as Hmk.
    { rewrite <- Hm, get_lower, Hget. reflexivity. }
    apply marker_slash_places in Hmk. lia.
Qed.

Lemma search_skips_prefix (pre m rest : string) :
  all_chars (is_not "/") pre = true -> Py.lower m = marker ->
  search (pre +:+ m +:+ rest) = search (m +:+ rest).
Proof.
  intros Hpre Hm. induction pre as [|c pre IH]; [reflexivity|].
  rewrite search_unfold.
  rewrite (no_match_before_marker (String c pre) m rest) by (discriminate || assumption).
  rewrite sapp_cons. simpl in Hpre. apply andb_true_iff in Hpre as [_ Hpre].
  apply IH, Hpre.
Qed.

End MarkerAnywhere.



(** C5: the query string is cut at every ['&']; a pair is cut once, at
    its first ['='], so the value keeps any later ['=']; a pair without
    ['='] leaves the dictionary as it is; of several pairs with the same
    lowered key the last one gives the value; and a pair with another key,
    wherever it stands, changes neither the secret nor the digits, on
    which alone the descriptor depends. *)
Theorem parse_query_pairs :
  (forall ps,
      ps <> [] -> Forall (fun p => all_chars (is_not "&") p = true) ps ->
      Py.split "&" (join ps) = ps)
  /\ (forall q, parse_query q = foldl add_param ∅ (Py.split "&" q))
  /\ (forall params k v,
        all_chars (is_not "=") k = true ->
        add_param params (k +:+ String "=" v) = <[Py.lower k := v]> params)
  /\ (forall params kv,
        all_chars (is_not "=") kv = true -> add_param params kv = params)
  /\ (forall ps1 k v ps2,
        Forall (fun p => all_chars (is_not "&") p = true)
          (ps1 ++ (k +:+ String "=" v) :: ps2) ->
        all_chars (is_not "=") k = true ->
        Forall (fun p => key_of p <> Some (Py.lower k)) ps2 ->
        parse_query (join (ps1 ++ (k +:+ String "=" v) :: ps2)) !! Py.lower k
        = Some v)
  /\ (forall ps1 p ps2 key,
        Forall (fun p => all_chars (is_not "&") p = true) (ps1 ++ p :: ps2) ->
        key_of p <> Some key ->
        parse_query (join (ps1 ++ p :: ps2)) !! key
        = parse_query (join (ps1 ++ ps2)) !! key)
  /\ (forall line1 line2 needle lab q1 q2,
        Re.search line1 = Some (lab, q1) ->
        Re.search line2 = Some (lab, q2) ->
        parse_query q1 !! "secret" = parse_query q2 !! "secret" ->
        parse_query q1 !! "digits" = parse_query q2 !! "digits" ->
        parse_first_match line1 needle = parse_first_match line2 needle).
Proof.
  refine (conj _ (conj _ (conj _ (conj _ (conj _ (conj _ _)))))).
  - apply split_join.
  - reflexivity.
  - intros params k v Hk. unfold add_param.
    rewrite (split_once_app "=" k v Hk). reflexivity.
  - intros params kv Hkv. unfold add_param.
    apply split_once_none in Hkv. rewrite Hkv. reflexivity.
  - intros ps1 k v ps2 Hamp Hk Hps2.
    rewrite (parse_query_join _ Hamp), foldl_app. simpl.
    rewrite (params_others ps2 _ _ Hps2). unfold add_param.
    rewrite (split_once_app "=" k v Hk). apply lookup_insert_eq.
  - intros ps1 p ps2 key Hamp Hp.
    assert (Forall (fun p => all_chars (is_not "&") p = true) (ps1 ++ ps2)) as Hamp'.
    { apply Forall_app in Hamp as [H1 H2]. inversion H2; subst.
      apply Forall_app. split; assumption. }
    rewrite (parse_query_join _ Hamp), (parse_query_join _ Hamp'), !foldl_app.
    simpl. apply params_agree, add_param_other, Hp.
  - intros line1 line2 needle lab q1 q2 H1 H2 Hs Hd.
    rewrite (parse_first_match_found _ _ _ _ H1),
      (parse_first_match_found _ _ _ _ H2), Hs, Hd. reflexivity.
Qed.

Lemma parse_query_pairs_witness :
  parse_query "secret=AAAA&issuer=ACME&SECRET=MZXW6===&flag&digits=8"
    !! "secret" = Some "MZXW6===".
Proof.
  apply (proj1 (proj2 (proj2 (proj2 (proj2 parse_query_pairs))))
           ["secret=AAAA"; "issuer=ACME"] "SECRET" "MZXW6==="
           ["flag"; "digits=8"]).
  - repeat constructor.
  - reflexivity.
  - repeat constructor; discriminate.
Defined.

(** * Further properties of the code *)

(** ** The extractor *)

Section TrailingSpace.

Import Re.

Lemma run_of_app_cases cls (s t : string) :
  match after_run cls s with
  | EmptyString =>
      run_of cls (s +:+ t) = s +:+ run_of cls t
      /\ after_run cls (s +:+ t) = after_run cls t
  | String c r =>
      run_of cls (s +:+ t) = run_of cls s
      /\ after_run cls (s +:+ t) = String c r +:+ t
  end.
Proof.
  induction s as [|a s IH]; [simpl; rewrite sapp_nil_l; auto|].
  rewrite sapp_cons. simpl. destruct (cls a); [|auto].
  destruct (after_run cls s); destruct IH as [-> ->]; auto.
Qed.

Lemma space_mismatches_marker (c : ascii) :
  Py.isspace c = true ->
  all_chars (fun p => negb (Ascii.eqb (Py.lower_char c) (Py.lower_char p)))
    marker = true.
Proof.
  destruct c as [[] [] [] [] [] [] [] []]; vm_compute; congruence.
Qed.

Lemma space_not_question (c : ascii) : Py.isspace c = true -> not_question c = true.
Proof.
  destruct c as [[] [] [] [] [] [] [] []]; vm_compute; congruence.
Qed.

(** A literal none of whose characters matches [c] sees [s] followed by
    [c] as it sees [s]. *)
Lemma literal_ignorecase_snoc (pat s : string) (c : ascii) :
  all_chars (fun p => negb (Ascii.eqb (Py.lower_char c) (Py.lower_char p)))
    pat = true ->
  literal_ignorecase pat (s +:+ String c "")
  = match literal_ignorecase pat s with
    | Some r => Some (r +:+ String c "")
    | None => None
    end.
Proof.
  revert s. induction pat as [|p pat IH]; intros s Hpat; [reflexivity|].
  simpl in Hpat. apply andb_true_iff in Hpat as [Hp Hpat].
  destruct s as [|a s].
  - rewrite sapp_nil_l. simpl. apply negb_true_iff in Hp. rewrite Hp.
    reflexivity.
  - rewrite sapp_cons. simpl.
    destruct (Ascii.eqb (Py.lower_char a) (Py.lower_char p)); [|reflexivity].
    apply IH, Hpat.
Qed.

Lemma match_here_snoc_space (s : string) (c : ascii) :
  Py.isspace c = true -> match_here (s +:+ String c "") = match_here s.
Proof.
  intros Hc. rewrite !match_here_runs.
  rewrite literal_ignorecase_snoc by (apply space_mismatches_marker, Hc).
  destruct (literal_ignorecase marker s) as [s1|]; [|reflexivity].
  pose proof (run_of_app_cases not_question s1 (String c "")) as H1.
  destruct (after_run not_question s1) as [|a s3] eqn:Ea.
  - destruct H1 as [-> ->]. simpl. rewrite (space_not_question c Hc).
    destruct (run_of not_question s1), (s1 +:+ String c ""); reflexivity.
  - destruct H1 as [-> ->]. rewrite sapp_cons.
    destruct (run_of not_question s1) as [|b lab]; [reflexivity|].
    pose proof (run_of_app_cases not_space s3 (String c "")) as H2.
    assert (run_of not_space (String c "") = "") as Hrun.
    { simpl. unfold not_space. rewrite Hc. reflexivity. }
    destruct (after_run not_space s3) eqn:E3; destruct H2 as [-> _].
    + rewrite Hrun, sapp_nil_r.
      pose proof (run_of_after_run not_space s3) as H3.
      rewrite E3, sapp_nil_r in H3. rewrite H3. reflexivity.
    + reflexivity.
Qed.

Lemma search_snoc_space (s : string) (c : ascii) :
  Py.isspace c = true -> search (s +:+ String c "") = search s.
Proof.
  intros Hc. induction s as [|a s IH].
  - rewrite sapp_nil_l. vm_compute search at 2.
    rewrite search_unfold.
    rewrite <- (sapp_nil_l (String c "")), (match_here_snoc_space "" c Hc).
    reflexivity.
  - rewrite (search_unfold (String a s +:+ String c "")),
      (search_unfold (String a s)), (match_here_snoc_space _ c Hc).
    destruct (match_here (String a s)); [reflexivity|].
    rewrite sapp_cons. exact IH.
Qed.

Lemma search_trailing_space (ws : string) : forall s,
  all_chars Py.isspace ws = true -> search (s +:+ ws) = search s.
Proof.
  induction ws as [|c ws IH]; intros s Hws.
  - rewrite sapp_nil_r. reflexivity.
  - simpl in Hws. apply andb_true_iff in Hws as [Hc Hws].
    rewrite <- sapp_snoc, (IH _ Hws). apply search_snoc_space, Hc.
Qed.

End TrailingSpace.

(** X1: white space at the end of a line (the newline that ends every raw
    line of the file, a carriage return before it, blanks) never changes
    what [parse_first_match] returns. *)
Theorem trailing_space_ignored (line ws needle : string) :
  all_chars Py.isspace ws = true ->
  parse_first_match (line +:+ ws) needle = parse_first_match line needle.
Proof.
  intros Hws. unfold parse_first_match.
  rewrite (search_trailing_space ws line Hws). reflexivity.
Qed.

Lemma trailing_space_ignored_witness :
  parse_first_match
    ("otpauth://totp/Work?secret=GEZDGNBVGY3TQOJQ&digits=8"
       +:+ String "013" (String "010" "")) "work"
  = parse_first_match "otpauth://totp/Work?secret=GEZDGNBVGY3TQOJQ&digits=8"
      "work".
Proof.
  apply (trailing_space_ignored
           "otpauth://totp/Work?secret=GEZDGNBVGY3TQOJQ&digits=8"
           (String "013" (String "010" "")) "work").
  reflexivity.
Defined.

Section Needle.

Import Re.

Lemma not_question_lower_char (c : ascii) :
  not_question (Py.lower_char c) = not_question c.
Proof. destruct c as [[] [] [] [] [] [] [] []]; reflexivity. Qed.

Lemma not_question_lower (s : string) :
  all_chars not_question (Py.lower s) = all_chars not_question s.
Proof.
  induction s as [|c s IH]; [reflexivity|].
  simpl. rewrite not_question_lower_char, IH. reflexivity.
Qed.

Lemma contains_trans (a b c : string) :
  Py.contains a b = true -> Py.contains b c = true -> Py.contains a c = true.
Proof.
  intros (x & y & ->)%contains_spec (u & v & ->)%contains_spec.
  apply contains_spec. exists (u +:+ x), (y +:+ v).
  rewrite !sapp_assoc. reflexivity.
Qed.

End Needle.

(** X2: a search text that contains ['?'] matches no line at all, because
    no label contains ['?']: every run with it reads the whole source and
    returns [False]. *)
Theorem question_mark_never_matches (needle : string) :
  all_chars Re.not_question needle = false ->
  (forall line, parse_first_match line needle = Ok None)
  /\ forall e f,
       returned (search_and_generate_oauth e f needle) = Ok false
       /\ lines_read (trace (search_and_generate_oauth e f needle)) = f.
Proof.
  intros Hq.
  assert (forall line, parse_first_match line needle = Ok None) as Hnone.
  { intros line. unfold parse_first_match.
    destruct (Re.search line) as [[lab q]|] eqn:Hre; [|reflexivity].
    destruct (Py.contains _ _) eqn:Hc; [|reflexivity]. exfalso.
    apply search_shape in Hre as (_ & _ & _ & _ & _ & _ & Hlab & _).
    apply contains_spec in Hc as (a & b & Hc).
    rewrite <- not_question_lower, Hc, !all_chars_app, not_question_lower, Hq in Hlab.
    rewrite andb_false_l, andb_false_r in Hlab. discriminate. }
  split; [exact Hnone|]. intros e f.
  rewrite (run_no_match e f needle).
  - simpl. rewrite lines_read_reads. simpl. rewrite app_nil_r. auto.
  - apply Forall_forall. intros l _. apply Hnone.
Qed.

Lemma question_mark_never_matches_witness :
  parse_first_match "otpauth://totp/Work?secret=GEZDGNBVGY3TQOJQ" "Work?"
  = Ok None.
Proof.
  apply (proj1 (question_mark_never_matches "Work?" eq_refl)).
Defined.

(** X3: a search text that is contained (ignoring case) in another one
    finds every record the other finds: on a line that a needle does not
    skip, each needle contained in it gives the same result; the empty
    needle gives it on every such line. *)
Theorem shorter_needle_matches_more (line needle needle' : string) :
  Py.contains (Py.lower needle') (Py.lower needle) = true ->
  parse_first_match line needle <> Ok None ->
  parse_first_match line needle' = parse_first_match line needle
  /\ parse_first_match line "" = parse_first_match line needle.
Proof.
  intros Hsub Hnot. unfold parse_first_match in *.
  destruct (Re.search line) as [[lab q]|]; [|congruence].
  destruct (Py.contains (Py.lower needle) (Py.lower lab)) eqn:Hc;
    [|simpl in Hnot; congruence].
  rewrite (contains_trans _ _ _ Hsub Hc).
  assert (Py.contains (Py.lower "") (Py.lower lab) = true) as ->.
  { apply contains_spec. exists "", (Py.lower lab). reflexivity. }
  split; reflexivity.
Qed.

Lemma shorter_needle_matches_more_witness :
  parse_first_match "otpauth://totp/Work:alice?secret=GEZDGNBVGY3TQOJQ" "WORK"
  = parse_first_match "otpauth://totp/Work:alice?secret=GEZDGNBVGY3TQOJQ"
      "work:alice".
Proof.
  apply (shorter_needle_matches_more
           "otpauth://totp/Work:alice?secret=GEZDGNBVGY3TQOJQ"
           "work:alice" "WORK").
  - reflexivity.
  - vm_compute. discriminate.
Defined.

(** X5: the only exception of [parse_first_match] is the [ValueError] of
    [int], and only on a line that passes the three filters and has a
    digits value that is no integer; the exception carries that value. *)
Theorem parse_error_is_digits (line needle : string) (x : exn) :
  parse_first_match line needle = Raise x ->
  passes_filters line needle = true
  /\ exists lab q v,
       Re.search line = Some (lab, q)
       /\ parse_query q !! "digits" = Some v
       /\ Py.int v = None
       /\ x = ValueError v.
Proof.
  intros H. split.
  { destruct (passes_filters line needle) eqn:E; [reflexivity|].
    apply parse_first_match_none in E. congruence. }
  unfold parse_first_match in H.
  destruct (Re.search line) as [[lab q]|]; [|discriminate].
  destruct (negb _); [discriminate|].
  destruct (parse_query q !! "secret") as [[|c s]|]; try discriminate.
  destruct (parse_query q !! "digits") as [v|] eqn:Ed; [|discriminate].
  destruct (Py.int v) eqn:Ei; [discriminate|].
  injection H as <-. exists lab, q, v. auto.
Qed.

Lemma parse_error_is_digits_witness :
  passes_filters "otpauth://totp/Work?secret=GEZDGNBVGY3TQOJQ&digits=six" "work"
  = true.
Proof.
  apply (parse_error_is_digits
           "otpauth://totp/Work?secret=GEZDGNBVGY3TQOJQ&digits=six" "work"
           (ValueError "six")).
  vm_compute. reflexivity.
Defined.

(** X6: of a line that starts with a well-formed URI, only that URI
    counts: whatever follows the white space after its query string, a
    second URI included, changes nothing. *)
Theorem rest_of_line_ignored (m lab q : string) (c : ascii)
    (rest needle : string) :
  Py.lower m = Re.marker ->
  lab <> "" -> all_chars Re.not_question lab = true ->
  q <> "" -> all_chars Re.not_space q = true ->
  Py.isspace c = true ->
  parse_first_match (m +:+ lab +:+ String "?" (q +:+ String c rest)) needle
  = parse_first_match (m +:+ lab +:+ String "?" q) needle.
Proof.
  intros Hm Hl1 Hl2 Hq1 Hq2 Hc. unfold parse_first_match.
  rewrite (search_here _ _ (match_here_to_end m lab q Hm Hl1 Hl2 Hq1 Hq2)).
  pose proof (match_here_groups m lab q (String c rest) Hm Hl1 Hl2 Hq1 Hq2)
    as Hg.
  assert (run_of Re.not_space (String c rest) = "") as Hr.
  { simpl. unfold Re.not_space. rewrite Hc. reflexivity. }
  rewrite Hr, sapp_nil_r in Hg. rewrite (search_here _ _ Hg). reflexivity.
Qed.

Lemma rest_of_line_ignored_witness :
  parse_first_match
    "otpauth://totp/Work?secret=MZXW6YTBOI otpauth://totp/Home?secret=GEZDGNBVGY3TQOJQ"
    "home"
  = parse_first_match "otpauth://totp/Work?secret=MZXW6YTBOI" "home".
Proof.
  apply (rest_of_line_ignored "otpauth://totp/" "Work" "secret=MZXW6YTBOI" " "
           "otpauth://totp/Home?secret=GEZDGNBVGY3TQOJQ" "home");
    try reflexivity; discriminate.
Defined.

Section Values.

Lemma split_go_pieces cls sep (s : string) : forall cur,
  all_chars cls cur = true -> all_chars cls s = true ->
  Forall (fun p => all_chars cls p = true) (Py.split_go sep cur s).
Proof.
  induction s as [|c s IH]; intros cur Hcur Hs; simpl.
  - constructor; [exact Hcur | constructor].
  - simpl in Hs. apply andb_true_iff in Hs as [Hc Hs].
    destruct (Ascii.eqb c sep).
    + constructor; [exact Hcur | apply IH; [reflexivity | exact Hs]].
    + apply IH; [|exact Hs]. rewrite all_chars_app, Hcur. simpl.
      rewrite Hc. reflexivity.
Qed.

Lemma split_go_no_sep_inside sep (s : string) : forall cur,
  all_chars (is_not sep) cur = true ->
  Forall (fun p => all_chars (is_not sep) p = true) (Py.split_go sep cur s).
Proof.
  induction s as [|c s IH]; intros cur Hcur; simpl.
  - constructor; [exact Hcur | constructor].
  - destruct (Ascii.eqb c sep) eqn:E.
    + constructor; [exact Hcur | apply IH; reflexivity].
    + apply IH. rewrite all_chars_app, Hcur. simpl. unfold is_not.
      rewrite E. reflexivity.
Qed.

(** Every value of the dictionary is made of characters of its pair. *)
Lemma add_param_values cls (params : gmap string string) (kv : string) :
  all_chars cls kv = true ->
  (forall k v, params !! k = Some v -> all_chars cls v = true) ->
  forall k v, add_param params kv !! k = Some v -> all_chars cls v = true.
Proof.
  intros Hkv Hparams k v. unfold add_param.
  destruct (Py.split_once "=" kv) as [[k0 v0]|] eqn:E; [|apply Hparams].
  apply split_once_sound in E as [-> _].
  rewrite all_chars_app in Hkv. simpl in Hkv.
  apply andb_true_iff in Hkv as [_ [_ Hv0]%andb_true_iff].
  destruct (decide (Py.lower k0 = k)) as [->|Hne].
  - rewrite lookup_insert_eq. intros [= <-]. exact Hv0.
  - rewrite lookup_insert_ne by exact Hne. apply Hparams.
Qed.

Lemma params_values cls (ps : list string) : forall params,
  Forall (fun p => all_chars cls p = true) ps ->
  (forall k v, params !! k = Some v -> all_chars cls v = true) ->
  forall k v, foldl add_param params ps !! k = Some v -> all_chars cls v = true.
Proof.
  induction ps as [|p ps IH]; intros params Hps Hparams; [exact Hparams|].
  inversion Hps; subst. simpl. apply IH; [assumption|].
  apply add_param_values; assumption.
Qed.

Lemma parse_query_values_from_query cls (q k v : string) :
  all_chars cls q = true -> parse_query q !! k = Some v ->
  all_chars cls v = true.
Proof.
  intros Hq. unfold parse_query, Py.split.
  apply params_values.
  - apply split_go_pieces; [reflexivity | exact Hq].
  - intros k' v'. rewrite lookup_empty. discriminate.
Qed.

Lemma parse_query_values_no_amp (q k v : string) :
  parse_query q !! k = Some v -> all_chars (is_not "&") v = true.
Proof.
  unfold parse_query, Py.split. apply params_values.
  - apply split_go_no_sep_inside. reflexivity.
  - intros k' v'. rewrite lookup_empty. discriminate.
Qed.

End Values.

(** X4: every descriptor that [parse_first_match] returns has a label
    that is not empty and has no ['?'], and a secret that is not empty and
    has neither white space nor ['&']. *)
Theorem descriptor_invariant (line needle : string) (d : OtpDescriptor) :
  parse_first_match line needle = Ok (Some d) ->
  label d <> "" /\ all_chars Re.not_question (label d) = true
  /\ secret d <> ""
  /\ all_chars Re.not_space (secret d) = true
  /\ all_chars (is_not "&") (secret d) = true.
Proof.
  intros H. apply parse_first_match_some in H as (q & Hre & _ & Hsec & Hne & _).
  apply search_shape in Hre as (_ & _ & _ & _ & _ & Hl1 & Hl2 & _ & Hq).
  repeat split; try assumption.
  - apply (parse_query_values_from_query _ q "secret"); assumption.
  - apply (parse_query_values_no_amp q "secret"); assumption.
Qed.

Lemma descriptor_invariant_witness :
  all_chars (is_not "&") "GEZDGNBVGY3TQOJQ" = true.
Proof.
  apply (descriptor_invariant
           "otpauth://totp/Work?secret=GEZDGNBVGY3TQOJQ&digits=8" "work"
           (mkDescriptor "Work" "GEZDGNBVGY3TQOJQ" 8)).
  vm_compute. reflexivity.
Defined.

(** ** The pipeline *)

(** X7: what a run leaves behind, by its result. The lines read, followed
    by the lines still unread, are the source. A run that returns [True]
    made one generator call and one clipboard call and printed one box,
    followed by the code exactly when the copy failed; a run that returns
    [False] read every line, called neither and printed the red box; a
    run that ends with an exception copied and printed nothing. *)
Theorem run_outputs (e : env) (f : list string) (needle : string) :
  let o := search_and_generate_oauth e f needle in
  lines_read (trace o) ++ unread o = f
  /\ match returned o with
     | Ok true =>
         exists d code,
           generated (trace o) = [d]
           /\ Generator.generate d (clock e) = Ok code
           /\ copies (trace o) = [(code, copy_to_clipboard e code)]
           /\ printed (trace o)
              = colored_box (copy_to_clipboard e code)
                  :: (if copy_to_clipboard e code then [] else [code])
     | Ok false =>
         unread o = [] /\ generated (trace o) = []
         /\ copies (trace o) = [] /\ printed (trace o) = [colored_box false]
     | Raise _ =>
         (length (generated (trace o)) <= 1)%nat
         /\ copies (trace o) = [] /\ printed (trace o) = []
     end.
Proof.
  intros o. subst o.
  destruct (source_split f needle) as [Hf|(pre & line & post & -> & Hpre & Hl)].
  - rewrite (run_no_match e f needle Hf). simpl.
    rewrite lines_read_reads, generated_reads, copies_reads, printed_reads.
    simpl. rewrite !app_nil_r. auto.
  - destruct (parse_first_match line needle) as [[d|]|x] eqn:El; [|congruence|].
    + rewrite (run_candidate e needle pre line post d Hpre El). simpl.
      rewrite lines_read_reads, generated_reads, copies_reads, printed_reads.
      simpl.
      destruct (Generator.generate d (clock e)) as [code|x] eqn:Eg.
      * rewrite lines_read_deliver, generated_deliver, copies_deliver,
          printed_deliver, app_nil_r, <- app_assoc.
        split; [reflexivity|]. exists d, code. auto.
      * simpl. rewrite app_nil_r, <- app_assoc. auto.
    + rewrite (run_candidate_raises e needle pre line post x Hpre El). simpl.
      rewrite lines_read_only, generated_only, copies_only, printed_only,
        <- app_assoc.
      simpl. auto.
Qed.

(** X8: taking out of the source a line on which [parse_first_match]
    returns [None] (a comment, a blank line, a record of another label)
    changes neither the result of the run nor what it generates, copies
    and prints. *)
Theorem skipped_line_is_harmless (e : env) (needle : string)
    (pre : list string) (l : string) (post : list string) :
  parse_first_match l needle = Ok None ->
  let o := search_and_generate_oauth e (pre ++ l :: post) needle in
  let o' := search_and_generate_oauth e (pre ++ post) needle in
  returned o = returned o'
  /\ generated (trace o) = generated (trace o')
  /\ copies (trace o) = copies (trace o')
  /\ printed (trace o) = printed (trace o').
Proof.
  intros Hl. induction pre as [|a pre IH]; simpl app.
  - intros o o'. subst o o'. rewrite (run_skip e l post needle Hl).
    simpl. auto.
  - intros o o'. subst o o'.
    destruct (parse_first_match a needle) as [[d|]|x] eqn:Ea.
    + rewrite !(run_hit e a _ needle d Ea). simpl.
      destruct (Generator.generate d (clock e)); simpl; auto.
    + rewrite !(run_skip e a _ needle Ea). simpl. exact IH.
    + rewrite !(run_raise e a _ needle x Ea). simpl. auto.
Qed.

Lemma skipped_line_is_harmless_witness :
  returned
    (search_and_generate_oauth (no_clipboard 59)
       ["otpauth://totp/Home?secret=MZXW6YTBOI"; "# work";
        "otpauth://totp/Work?secret=GEZDGNBVGY3TQOJQ"] "work")
  = returned
      (search_and_generate_oauth (no_clipboard 59)
         ["otpauth://totp/Home?secret=MZXW6YTBOI";
          "otpauth://totp/Work?secret=GEZDGNBVGY3TQOJQ"] "work").
Proof.
  apply (skipped_line_is_harmless (no_clipboard 59) "work"
           ["otpauth://totp/Home?secret=MZXW6YTBOI"] "# work"
           ["otpauth://totp/Work?secret=GEZDGNBVGY3TQOJQ"]).
  reflexivity.
Defined.

(** ** The clipboard *)

(** X9: [copy_to_clipboard] returns [True] only if a tool it is allowed
    to use really took the text: a command found on the PATH ([clip] only
    under [nt]) that ended with status 0, or an importable [pyperclip]
    whose [copy] did not raise. *)
Theorem clipboard_success_is_real (e : env) (text : string) :
  copy_to_clipboard e text = true ->
  (which e "xclip" = true /\ run_pipe e xclip_argv text = Some 0)
  \/ (which e "pbcopy" = true /\ run_pipe e ["pbcopy"] text = Some 0)
  \/ (os_name_nt e = true /\ which e "clip" = true
      /\ run_pipe e ["clip"] text = Some 0)
  \/ (pyperclip_available e = true /\ pyperclip_copy e text = true).
Proof.
  clipboard_cases e text; intros Hres; try discriminate;
    try (apply Z.eqb_eq in Hres; subst); auto 10.
Qed.

Lemma clipboard_success_is_real_witness :
  which (mkEnv 0 (fun _ => true) false (fun _ _ => Some 0) false (fun _ => false))
    "xclip" = true.
Proof.
  destruct (clipboard_success_is_real
              (mkEnv 0 (fun _ => true) false (fun _ _ => Some 0) false
                 (fun _ => false)) "123456" eq_refl)
    as [[H _]|[[H _]|[[H _]|[H _]]]]; try discriminate H; reflexivity.
Defined.

(** X10: the tools are started one after the other, and the first one
    that does not raise decides: every tool started before the last one
    is a command that raised; after a command that ran, its exit status
    alone is the result (a status other than 0 gives [False] and no other
    tool is tried); after [pyperclip] the result tells whether its [copy]
    returned; and when nothing could be started, or everything raised,
    the result is [False]. The boolean is that of [copy_to_clipboard]. *)
Theorem first_responding_tool_decides (e : env) (text : string) :
  let r := copy_to_clipboard_attempts e text in
  snd r = copy_to_clipboard e text
  /\ Forall (fun a => exists argv, a = Piped argv /\ run_pipe e argv text = None)
       (removelast (fst r))
  /\ match last (fst r) with
     | Some (Piped argv) =>
         match run_pipe e argv text with
         | Some rc => snd r = (rc =? 0)
         | None => snd r = false
         end
     | Some Pyperclip => snd r = pyperclip_copy e text
     | None => snd r = false
     end.
Proof.
  clipboard_cases e text;
    repeat match goal with
           | H : run_pipe _ _ _ = _ |- _ => rewrite ?H; revert H
           end;
    intros; (split; [reflexivity|]); (split; [|reflexivity]);
    repeat constructor; eauto.
Qed.

(** X11: the tools are started in the order xclip, pbcopy, clip,
    pyperclip, each at most once; a command is started only if
    [shutil_which] found it, [clip] only under [nt], and [pyperclip] only
    if it could be imported. *)
Theorem tools_started_in_order (e : env) (text : string) :
  let tools := fst (copy_to_clipboard_attempts e text) in
  sublist tools [Piped xclip_argv; Piped ["pbcopy"]; Piped ["clip"]; Pyperclip]
  /\ (In (Piped xclip_argv) tools -> which e "xclip" = true)
  /\ (In (Piped ["pbcopy"]) tools -> which e "pbcopy" = true)
  /\ (In (Piped ["clip"]) tools ->
        os_name_nt e = true /\ which e "clip" = true)
  /\ (In Pyperclip tools -> pyperclip_available e = true).
Proof.
  clipboard_cases e text;
    (split; [repeat first [apply sublist_nil | apply sublist_skip
                          | apply sublist_cons]|]);
    refine (conj _ (conj _ (conj _ _))); intros Hin;
    repeat (destruct Hin as [Hin|Hin]; try discriminate Hin);
    try destruct Hin; auto.
Qed.

(** ** [shutil_which] *)

Section Which.

Variable o : os.

Lemma find_app_first {A} (p : A -> bool) (l1 l2 : list A) :
  find p (l1 ++ l2)
  = match find p l1 with
    | Some x => Some x
    | None => find p l2
    end.
Proof.
  induction l1 as [|a l1 IH]; [reflexivity|].
  simpl. destruct (p a); [reflexivity | exact IH].
Qed.

Lemma which_in_exts_find (candidate : string) (exts : list string) :
  which_in_exts o candidate exts
  = find (is_executable_file o) (map (fun ext => candidate +:+ ext) exts).
Proof.
  induction exts as [|x exts IH]; [reflexivity|].
  simpl. destruct (is_executable_file o _); [reflexivity | exact IH].
Qed.

Lemma which_in_dirs_find (cmd : string) (exts dirs : list string) :
  which_in_dirs o cmd exts dirs
  = find (is_executable_file o)
      (flat_map
         (fun directory => map (fun ext => path_join o directory cmd +:+ ext) exts)
         dirs).
Proof.
  induction dirs as [|d dirs IH]; [reflexivity|].
  simpl. rewrite find_app_first, which_in_exts_find, IH. reflexivity.
Qed.

Lemma find_none_iff {A} (p : A -> bool) (l : list A) :
  find p l = None <-> Forall (fun x => p x = false) l.
Proof.
  induction l as [|a l IH]; simpl.
  - split; [constructor | reflexivity].
  - destruct (p a) eqn:E.
    + split; [discriminate | inversion 1; congruence].
    + rewrite IH. split; [constructor; assumption | inversion 1; assumption].
Qed.

Lemma find_first {A} (p : A -> bool) (l : list A) (x : A) :
  find p l = Some x ->
  exists l1 l2, l = l1 ++ x :: l2 /\ p x = true
                /\ Forall (fun y => p y = false) l1.
Proof.
  induction l as [|a l IH]; simpl; [discriminate|].
  destruct (p a) eqn:E.
  - intros [= <-]. exists [], l. repeat split; [exact E | constructor].
  - intros H. destruct (IH H) as (l1 & l2 & -> & Hx & Hl1).
    exists (a :: l1), l2. repeat split; [exact Hx | constructor; assumption].
Qed.

Lemma shutil_which_find (cmd : string) :
  shutil_which o cmd = find (is_executable_file o) (which_candidates o cmd).
Proof.
  unfold shutil_which, which_candidates, which_dirs. apply which_in_dirs_find.
Qed.

Lemma which_in_dirs_bare (cmd : string) (dirs : list string) :
  which_in_dirs o cmd [""] dirs
  = find (is_executable_file o)
      (map (fun directory => path_join o directory cmd) dirs).
Proof.
  induction dirs as [|d dirs IH]; [reflexivity|].
  simpl. rewrite sapp_nil_r, IH.
  destruct (is_executable_file o (path_join o d cmd)); reflexivity.
Qed.

End Which.

(** X12: [shutil_which] returns the first executable file among the
    candidates, taken directory by directory in the order of the PATH and,
    within a directory, extension by extension: the path it returns is
    executable and no candidate before it is; it returns [None] exactly
    when no candidate is executable. *)
Theorem which_finds_first_candidate (o : os) (cmd : string) :
  shutil_which o cmd = find (is_executable_file o) (which_candidates o cmd)
  /\ (forall p,
        shutil_which o cmd = Some p ->
        exists before rest,
          which_candidates o cmd = before ++ p :: rest
          /\ is_executable_file o p = true
          /\ Forall (fun c => is_executable_file o c = false) before)
  /\ (shutil_which o cmd = None <->
      Forall (fun c => is_executable_file o c = false) (which_candidates o cmd)).
Proof.
  rewrite (shutil_which_find o cmd). split; [reflexivity|]. split.
  - intros p. apply find_first.
  - apply find_none_iff.
Qed.

(** X13: on a system other than [nt] the variable PATHEXT plays no part
    and nothing is appended to the command: the result is the first
    executable [os.path.join(directory, cmd)] over the directories of the
    PATH; and when PATH is not set, the only directory tried is the
    empty one. *)
Theorem which_without_extensions (o : os) (cmd : string) :
  String.eqb (os_name o) "nt" = false ->
  shutil_which o cmd
  = find (is_executable_file o)
      (map (fun directory => path_join o directory cmd) (which_dirs o))
  /\ (forall pathext,
        shutil_which
          (mkOs (<["PATHEXT" := pathext]> (environ o)) (os_name o) (pathsep o)
             (path_join o) (is_executable_file o)) cmd
        = shutil_which o cmd)
  /\ (environ o !! "PATH" = None ->
      shutil_which o cmd
      = if is_executable_file o (path_join o "" cmd)
        then Some (path_join o "" cmd) else None).
Proof.
  intros Hnt.
  assert (shutil_which o cmd
          = find (is_executable_file o)
              (map (fun directory => path_join o directory cmd) (which_dirs o)))
    as Hw.
  { unfold shutil_which, which_exts. rewrite Hnt. apply which_in_dirs_bare. }
  split; [exact Hw|]. split.
  - intros pathext. rewrite Hw. unfold shutil_which, which_exts. simpl.
    rewrite Hnt, which_in_dirs_bare. unfold which_dirs, environ_get. simpl.
    rewrite lookup_insert_ne by discriminate. reflexivity.
  - intros Hpath. rewrite Hw. unfold which_dirs, environ_get. rewrite Hpath.
    simpl. destruct (is_executable_file o (path_join o "" cmd)); reflexivity.
Qed.

Lemma which_without_extensions_witness :
  shutil_which posix_example "xclip" = Some "/bin/xclip".
Proof.
  rewrite (proj1 (which_without_extensions posix_example "xclip" eq_refl)).
  vm_compute. reflexivity.
Defined.

(** X14: under [nt] with PATHEXT not set, a path that [shutil_which]
    returns is [os.path.join(directory, cmd)] for a directory of the PATH,
    followed by [.EXE], [.BAT] or [.CMD]: the bare command is not tried. *)
Theorem which_default_extensions (o : os) (cmd p : string) :
  String.eqb (os_name o) "nt" = true ->
  environ o !! "PATHEXT" = None ->
  shutil_which o cmd = Some p ->
  is_executable_file o p = true
  /\ exists directory ext,
       In directory (which_dirs o)
       /\ In ext [".EXE"; ".BAT"; ".CMD"]
       /\ p = path_join o directory cmd +:+ ext.
Proof.
  intros Hnt Hext Hp.
  rewrite shutil_which_find in Hp.
  apply find_first in Hp as (before & rest & Hc & Hx & _).
  split; [exact Hx|].
  assert (In p (which_candidates o cmd)) as Hin.
  { rewrite Hc. apply in_or_app. right. left. reflexivity. }
  unfold which_candidates in Hin. apply in_flat_map in Hin as (d & Hd & Hin).
  apply in_map_iff in Hin as (x & <- & Hx').
  exists d, x. repeat split; [exact Hd|].
  unfold which_exts, environ_get in Hx'. rewrite Hnt, Hext in Hx'. exact Hx'.
Qed.

Lemma which_default_extensions_witness :
  exists directory ext,
    In directory (which_dirs nt_example)
    /\ In ext [".EXE"; ".BAT"; ".CMD"]
    /\ "C:/Windows/System32/clip.EXE"
       = path_join nt_example directory "clip" +:+ ext.
Proof.
  apply (which_default_extensions nt_example "clip"
           "C:/Windows/System32/clip.EXE").
  - reflexivity.
  - vm_compute. reflexivity.
  - vm_compute. reflexivity.
Defined.

(** ** [main] and the whole program *)

Section Whole.

Variable e : env.
Variable needle : string.

Lemma returned_false_iff (f : list string) :
  returned (search_and_generate_oauth e f needle) = Ok false
  <-> Forall (fun l => passes_filters l needle = false) f.
Proof.
  split.
  - intros H.
    destruct (source_split f needle) as [Hf|(pre & line & post & -> & Hpre & Hl)].
    + eapply Forall_impl; [exact Hf|]. intros l. apply parse_first_match_none.
    + destruct (parse_first_match line needle) as [[d|]|x] eqn:El; [|congruence|].
      * rewrite (run_candidate e needle pre line post d Hpre El) in H.
        simpl in H. destruct (Generator.generate d (clock e)); discriminate.
      * rewrite (run_candidate_raises e needle pre line post x Hpre El) in H.
        discriminate.
  - intros H. apply skipped_filters in H.
    rewrite (run_no_match e f needle H). reflexivity.
Qed.

Lemma returned_true_iff (f : list string) :
  returned (search_and_generate_oauth e f needle) = Ok true
  <-> exists pre line post d code,
        f = pre ++ line :: post
        /\ Forall (fun l => passes_filters l needle = false) pre
        /\ parse_first_match line needle = Ok (Some d)
        /\ Generator.generate d (clock e) = Ok code.
Proof.
  split.
  - intros H.
    destruct (source_split f needle) as [Hf|(pre & line & post & -> & Hpre & Hl)].
    + rewrite (run_no_match e f needle Hf) in H. discriminate.
    + destruct (parse_first_match line needle) as [[d|]|x] eqn:El; [|congruence|].
      * rewrite (run_candidate e needle pre line post d Hpre El) in H.
        simpl in H.
        destruct (Generator.generate d (clock e)) as [code|] eqn:Eg;
          [|discriminate].
        exists pre, line, post, d, code. repeat split; try assumption.
        eapply Forall_impl; [exact Hpre|]. intros l. apply parse_first_match_none.
      * rewrite (run_candidate_raises e needle pre line post x Hpre El) in H.
        discriminate.
  - intros (pre & line & post & d & code & -> & Hpre & Hl & Hg).
    apply skipped_filters in Hpre.
    rewrite (run_candidate e needle pre line post d Hpre Hl), Hg. reflexivity.
Qed.

End Whole.


(** X16: on a system where [shutil_which] finds neither xclip nor pbcopy
    nor, under [nt], clip, and [pyperclip] cannot be imported,
    [copy_to_clipboard] starts nothing and returns [False] for every text,
    so every run that returns [True] generated one code, for the
    descriptor it found, saw the copy of that code fail and printed the
    red box followed by that code. *)
Theorem no_tool_prints_code (o : os) (now : Z)
    (pipes : list string -> string -> option Z) :
  Forall (fun c => is_executable_file o c = false) (which_candidates o "xclip") ->
  Forall (fun c => is_executable_file o c = false) (which_candidates o "pbcopy") ->
  String.eqb (os_name o) "nt" = false
  \/ Forall (fun c => is_executable_file o c = false) (which_candidates o "clip") ->
  let e := env_on o now pipes None in
  (forall text, copy_to_clipboard_attempts e text = ([], false)
                /\ copy_to_clipboard e text = false)
  /\ forall f needle,
       let r := search_and_generate_oauth e f needle in
       returned r = Ok true ->
       exists d code,
         generated (trace r) = [d]
         /\ Generator.generate d now = Ok code
         /\ copies (trace r) = [(code, false)]
         /\ printed (trace r) = [colored_box false; code].
Proof.
  intros Hx Hp Hc e.
  assert (forall text, copy_to_clipboard_attempts e text = ([], false)
                       /\ copy_to_clipboard e text = false) as Hcopy.
  { intros text. unfold copy_to_clipboard_attempts, copy_to_clipboard.
    subst e. unfold env_on. simpl.
    rewrite !shutil_which_find.
    rewrite (proj2 (find_none_iff _ _) Hx), (proj2 (find_none_iff _ _) Hp).
    destruct Hc as [Hc|Hc].
    - rewrite Hc. auto.
    - rewrite (proj2 (find_none_iff _ _) Hc). simpl.
      rewrite andb_false_r. auto. }
  split; [exact Hcopy|].
  intros f needle r Hret. subst r. apply returned_true_iff in Hret
    as (pre & line & post & d & code & -> & Hpre & Hl & Hg).
  apply skipped_filters in Hpre.
  rewrite (run_candidate e needle pre line post d Hpre Hl).
  replace (clock e) with now by reflexivity.
  replace (clock e) with now in Hg by reflexivity. rewrite Hg.
  cbn [trace]. rewrite generated_reads, copies_reads, printed_reads.
  change (generated (EvGenerate d :: deliver e code))
    with (d :: generated (deliver e code)).
  change (copies (EvGenerate d :: deliver e code))
    with (copies (deliver e code)).
  change (printed (EvGenerate d :: deliver e code))
    with (printed (deliver e code)).
  rewrite generated_deliver, copies_deliver, printed_deliver,
    (proj2 (Hcopy code)).
  exists d, code. auto.
Qed.

Lemma no_tool_prints_code_witness :
  copy_to_clipboard
    (env_on
       (mkOs ∅ "posix" ":" (fun d c => d +:+ "/" +:+ c) (fun _ => false))
       59 (fun _ _ => Some 0) None) "94287082"
  = false.
Proof.
  apply (no_tool_prints_code
           (mkOs ∅ "posix" ":" (fun d c => d +:+ "/" +:+ c) (fun _ => false))
           59 (fun _ _ => Some 0)); [repeat constructor.. | left; reflexivity].
Defined.
